(** * baseline_generate.py: the two-call correction pipeline

    A shallow embedding of [main] of [code/baseline_generate.py]: the
    table is read, validated, every row goes through the specialist call
    and the reviewer call inside one [try]/[except], and the three
    accumulated columns are written out.

    Python text is a sequence of Unicode code points, the cells of a
    table are Python values, and the body of [main] runs in a state and
    exception monad whose store holds the local variables of [main], the
    state of the remote service, the log of the requests sent to it, the
    console and the files written. *)

From Stdlib Require Import DecimalString QArith Qcanon.
From Stdlib Require DecimalNat.
From Stdlib Require Import Floats.
From stdpp Require Import numbers gmap strings list.

Open Scope N_scope.

(** ** Text *)

(** A Python [str]: its code points. *)
Abbreviation str := (list N).

(** Code points of the UTF-8 bytes of a literal of this file. *)
Fixpoint utf8_decode (bs : list N) : str :=
  match bs with
  | [] => []
  | b0 :: bs1 =>
    if b0 <? 0x80 then b0 :: utf8_decode bs1
    else
      match bs1 with
      | [] => [b0]
      | b1 :: bs2 =>
        if b0 <? 0xE0
        then N.lor (N.shiftl (N.land b0 0x1F) 6) (N.land b1 0x3F)
               :: utf8_decode bs2
        else
          match bs2 with
          | [] => [b0; b1]
          | b2 :: bs3 =>
            if b0 <? 0xF0
            then N.lor (N.shiftl (N.land b0 0x0F) 12)
                   (N.lor (N.shiftl (N.land b1 0x3F) 6) (N.land b2 0x3F))
                   :: utf8_decode bs3
            else
              match bs3 with
              | [] => [b0; b1; b2]
              | b3 :: bs4 =>
                N.lor (N.shiftl (N.land b0 0x07) 18)
                  (N.lor (N.shiftl (N.land b1 0x3F) 12)
                     (N.lor (N.shiftl (N.land b2 0x3F) 6) (N.land b3 0x3F)))
                  :: utf8_decode bs4
              end
          end
      end
  end.

Definition lit (s : string) : str :=
  utf8_decode (Ascii.N_of_ascii <$> String.list_ascii_of_string s).

Arguments lit : simpl never.

(** [ch.isspace()]: the code points Python treats as whitespace. *)
Definition isspace (c : N) : bool :=
  ((0x09 <=? c) && (c <=? 0x0D)) || ((0x1C <=? c) && (c <=? 0x20))
  || (c =? 0x85) || (c =? 0xA0) || (c =? 0x1680)
  || ((0x2000 <=? c) && (c <=? 0x200A))
  || (c =? 0x2028) || (c =? 0x2029) || (c =? 0x202F) || (c =? 0x205F)
  || (c =? 0x3000).

Fixpoint lstrip (s : str) : str :=
  match s with
  | [] => []
  | c :: s' => if isspace c then lstrip s' else s
  end.

Definition rstrip (s : str) : str := reverse (lstrip (reverse s)).

(** [s.strip()] *)
Definition strip (s : str) : str := rstrip (lstrip s).

(** Truth value of a string: [if s]. *)
Definition truthy (s : str) : bool :=
  match s with [] => false | _ :: _ => true end.

(** [str(n)] for an [int]. *)
Definition str_of_nat (n : nat) : str :=
  lit (NilZero.string_of_uint (Nat.to_uint n)).

Definition str_of_Z (z : Z) : str :=
  lit (NilZero.string_of_int (Z.to_int z)).

(** ** Values held in the cells of a table

    [pd.read_csv] yields text for a field of a text column, an integer
    for a field of an all-integer column, a float for a field of a
    numeric column with decimals or empty fields, and the float NaN for
    an empty field.  Floats are the binary64 numbers of the machine. *)
Inductive pyval :=
| PyStr (s : str)
| PyInt (z : Z)
| PyFloat (f : float).

(** The missing-value marker. *)
Abbreviation PyNaN := (PyFloat nan).

(** [float(z)], the conversion numpy makes when it stores an integer in
    a float array: the nearest binary64 number, ties to even. *)
Definition float_of_Z (z : Z) : float :=
  SF2Prim (binary_normalize prec emax z 0 false).

(** The absolute value of a float that is a whole number. *)
Definition float_whole (f : float) : option Z :=
  match Prim2SF f with
  | S754_zero _ => Some 0%Z
  | S754_finite _ m e =>
    if (0 <=? e)%Z then Some (Z.pos m * 2 ^ e)%Z
    else if (Z.pos m mod 2 ^ (- e) =? 0)%Z then Some (Z.pos m / 2 ^ (- e))%Z
    else None
  | _ => None
  end.

(** ** Exceptions

    Only subclasses of [Exception] occur: the ones [main] raises itself,
    the lookup and attribute errors of the interpreter, and whatever the
    client of the remote service raises. *)
Record Exception := mkExc { exc_type : string; exc_str : str }.

Definition ValueError (msg : string) : Exception := mkExc "ValueError" (lit msg).
Definition KeyError (key : string) : Exception :=
  mkExc "KeyError" (lit "'" ++ lit key ++ lit "'").
Definition IndexError (msg : string) : Exception := mkExc "IndexError" (lit msg).
Definition AttributeError (msg : string) : Exception :=
  mkExc "AttributeError" (lit msg).

(** ** Tables *)

(** One row, of the table or as [iterrows] yields it: column label to
    cell. *)
Abbreviation Row := (gmap string pyval).

Record DataFrame := mkDataFrame {
  columns : list string;
  rows : list Row
}.

(** Every row has a cell for exactly the columns of the table. *)
Definition well_formed (df : DataFrame) : Prop :=
  Forall (λ r : Row, dom r = list_to_set (columns df)) (rows df).

(** [len(df)], [df.shape[0]] *)
Definition len (df : DataFrame) : nat := length (rows df).

(** [df[c] = values] for a new column [c] and [len(df)] values. *)
Definition setitem (df : DataFrame) (c : string) (values : list pyval) : DataFrame :=
  {| columns := columns df ++ [c];
     rows := zip_with (λ (r : Row) v, <[c := v]> r) (rows df) values |}.

(** *** Column types and [df.iterrows()]

    A column of integers is an [int64] column, a column of floats a
    [float64] column, any other column holds Python objects. *)
Inductive dtype := Int64 | Float64 | Object.

Definition is_int64 (v : pyval) : bool :=
  match v with
  | PyInt z => (- 2 ^ 63 <=? z)%Z && (z <? 2 ^ 63)%Z
  | _ => false
  end.

Definition is_float (v : pyval) : bool :=
  match v with
  | PyFloat _ => true
  | _ => false
  end.

(** [df[c]], the cells of one column. *)
Definition column_cells (df : DataFrame) (c : string) : list pyval :=
  omap (λ r : Row, r !! c) (rows df).

(** [df[c].dtype] *)
Definition column_dtype (df : DataFrame) (c : string) : dtype :=
  if forallb is_int64 (column_cells df c) then Int64
  else if forallb is_float (column_cells df c) then Float64
  else Object.

(** The type of [df.values], the one array [iterrows] takes its rows
    from: [int64] when every column is, [float64] when every column is
    numeric, objects otherwise. *)
Definition common_dtype (df : DataFrame) : dtype :=
  let ds := column_dtype df <$> columns df in
  if forallb (λ d, match d with Int64 => true | _ => false end) ds then Int64
  else if forallb (λ d, match d with Object => false | _ => true end) ds
       then Float64
  else Object.

(** A cell stored in an array of type [t]: an integer in a float array
    becomes a float, everything else stays what it is. *)
Definition upcast (t : dtype) (v : pyval) : pyval :=
  match t, v with
  | Float64, PyInt z => PyFloat (float_of_Z z)
  | _, _ => v
  end.

(** The rows [df.iterrows()] yields, each one a series of the common
    type of the table. *)
Definition iterrows (df : DataFrame) : list Row :=
  (λ r : Row, upcast (common_dtype df) <$> r) <$> rows df.

(** The placeholder identifier of row [i]. *)
Definition temp_id (i : nat) : pyval := PyStr (lit "temp_id_" ++ str_of_nat i).

(** One row of the output table. *)
Definition out_row (i : pyval) (e c : str) : Row :=
  <["id" := i]> (<["err_sentence" := PyStr e]> {["cor_sentence" := PyStr c]}).

(** [pd.DataFrame({"id": ids, "err_sentence": errs, "cor_sentence": cors})]:
    the three lists must have one length. *)
Definition DataFrame_of_columns (ids : list pyval) (errs cors : list str)
  : Exception + DataFrame :=
  if decide (length ids = length errs ∧ length errs = length cors)
  then inr {| columns := ["id"; "err_sentence"; "cor_sentence"];
              rows := zip_with (λ i ec, out_row i ec.1 ec.2) ids (zip errs cors) |}
  else inl (ValueError "All arrays must be of the same length").

(** [df[[c1; ...; cn]]]: the listed columns, in the listed order. *)
Definition select (df : DataFrame) (cs : list string) : Exception + DataFrame :=
  match list_find (λ c, c ∉ columns df) cs with
  | Some (_, c) => inl (KeyError c)
  | None =>
    inr {| columns := cs;
           rows := (λ r : Row, filter (λ kv, kv.1 ∈ cs) r) <$> rows df |}
  end.

(** ** The remote service and the command line *)

(** One entry of [messages]. *)
Record ChatMessage := mkMessage { role : str; content : str }.

(** The keyword arguments of [client.chat.completions.create];
    the temperature [0.0] is kept as the exact rational. *)
Record Request := mkRequest {
  req_model : str;
  req_messages : list ChatMessage;
  req_temperature : Qc
}.

(** A completion: [resp.choices[k].message.content], which may be [None]. *)
Record CompletionMessage := mkCompletionMessage { message_content : option str }.
Record Choice := mkChoice { message : CompletionMessage }.
Record ChatCompletion := mkChatCompletion { choices : list Choice }.

(** [OpenAI(api_key=..., base_url=...)] *)
Record OpenAI := mkOpenAI { api_key : str; base_url : str }.

(** The parsed command line. *)
Record Args := mkArgs { input : str; output : str; model : str }.

(** What the process reads and never changes: the tables [pd.read_csv]
    finds under each path and the environment after [load_dotenv()]. *)
Record Host := mkHost {
  files : str → Exception + DataFrame;
  environ : gmap string str
}.

(** [resp.choices[0].message.content], on which [.strip()] is then
    called: no choice at all and a content of [None] both raise. *)
Definition first_content (resp : ChatCompletion) : Exception + str :=
  match choices resp with
  | [] => inl (IndexError "list index out of range")
  | c :: _ =>
    match message_content (message c) with
    | None => inl (AttributeError "'NoneType' object has no attribute 'strip'")
    | Some t => inr t
    end
  end.

Definition system_1 : str :=
  lit "당신은 한국어 문장 교정 전문가입니다. 맞춤법/띄어쓰기/문장부호/문법을 자연스럽게 교정하세요. 반드시 불필한 설명 없이 교정된 문장만 출력하세요.".

Definition system_2 : str :=
  lit "당신은 1차 교정본을 검토하는 2차 검토자입니다. 명백한 오류가 아니라면 절대 수정하지 마세요. 설명 없이 교정된 문장만 출력하세요.".

Definition chat_request (args : Args) (system prompt : str) : Request :=
  {| req_model := model args;
     req_messages := [ mkMessage (lit "system") system;
                       mkMessage (lit "user") prompt ];
     req_temperature := 0%Qc |}.

(** ** Store

    The state of the remote service, the requests sent so far, the lines
    printed, the files written, and the local variables of [main] that
    live across statements. *)
Record Store {R : Type} := mkStore {
  remote : R;
  requests : list Request;
  stdout : list str;
  written : list (str * DataFrame);
  ids : list pyval;
  err_sentences : list str;
  cor_sentences : list str;
  corrected_1 : str;
  corrected_2 : str
}.

Arguments mkStore {R}.

(** ** A scripted service and a sample table *)

Definition completion (t : str) : Exception + ChatCompletion :=
  inr (mkChatCompletion [mkChoice (mkCompletionMessage (Some t))]).

Definition failure (msg : string) : Exception + ChatCompletion :=
  inl (mkExc "APIConnectionError" (lit msg)).

(** The service whose state is the number of calls so far: call [k] gets
    answer [k] of the script, and past the script the call fails. *)
Definition scripted (script : list (Exception + ChatCompletion))
    (k : nat) (_ : OpenAI) (_ : Request) : nat * (Exception + ChatCompletion) :=
  (S k, default (failure "Connection error.") (script !! k)).

(** [template.format(text=t)] for a template that ends with its slot,
    written without the slot. *)
Definition format_at_end (template text : str) : Exception + str :=
  inr (template ++ text).

Definition sample_row_0 : Row :=
  {[ "id" := PyInt 1; "err_sentence" := PyStr (lit "안뇽하세요") ]}.
Definition sample_row_1 : Row :=
  {[ "id" := PyInt 2; "err_sentence" := PyNaN ]}.
Definition sample_row_2 : Row :=
  {[ "id" := PyInt 3; "err_sentence" := PyStr (lit "오늘 날씨 좋다") ]}.
Definition sample_row_3 : Row :=
  {[ "id" := PyInt 4; "err_sentence" := PyStr (lit "abc") ]}.
Definition sample_row_4 : Row :=
  {[ "id" := PyInt 5; "err_sentence" := PyStr (lit "def") ]}.

Definition sample_rows : list Row :=
  [sample_row_0; sample_row_1; sample_row_2; sample_row_3; sample_row_4].

Definition sample_table : DataFrame :=
  {| columns := ["id"; "err_sentence"]; rows := sample_rows |}.

Definition sample_table_no_id : DataFrame :=
  {| columns := ["err_sentence"];
     rows := (λ r : Row, delete "id" r) <$> sample_rows |}.

Definition sample_table_no_sentence : DataFrame :=
  {| columns := ["id"; "sentence"];
     rows := [ {[ "id" := PyInt 1; "sentence" := PyStr (lit "abc") ]} ] |}.

(** Row 0: both calls answer.  Row 1: the first call fails.  Row 2: the
    second call fails.  Row 3: the first answer is blank and the second
    call fails.  Row 4: the second answer is blank. *)
Definition sample_script : list (Exception + ChatCompletion) :=
  [ completion (lit "안녕하세요"); completion (lit " 안녕하세요. ");
    failure "Request timed out.";
    completion (lit " 오늘 날씨 좋다. "); failure "Rate limit reached.";
    completion (lit "  "); failure "Request timed out.";
    completion (lit "def."); completion (lit "   ") ].

(** A second table and script: other rows and other answers around the
    same row 2 with the same two answers. *)
Definition other_table : DataFrame :=
  {| columns := ["id"; "err_sentence"];
     rows := [ {[ "id" := PyInt 7; "err_sentence" := PyStr (lit "zzz") ]};
               {[ "id" := PyInt 8; "err_sentence" := PyStr (lit "yyy") ]};
               sample_row_2 ] |}.

Definition other_script : list (Exception + ChatCompletion) :=
  [ failure "Connection error.";
    completion (lit "yyy."); completion (lit "yyy!");
    completion (lit " 오늘 날씨 좋다. "); failure "Rate limit reached." ].

Definition sample_prompt_1 : str := lit "다음 문장을 교정하세요: ".
Definition sample_prompt_2 : str := lit "다음 교정본을 검토하세요: ".

Definition sample_key : str := lit "up_sample".

Definition sample_host (df : DataFrame) : Host :=
  {| files := λ _, inr df; environ := {[ "UPSTAGE_API_KEY" := sample_key ]} |}.

Definition sample_host_no_key (df : DataFrame) : Host :=
  {| files := λ _, inr df; environ := ∅ |}.

Definition sample_args : Args :=
  {| input := lit "data/train_dataset.csv"; output := lit "submission.csv";
     model := lit "solar-pro2" |}.

Definition fresh : Store :=
  mkStore 0%nat [] [] [] [] [] [] [] [].

(** A host whose table cannot be read, a table without rows, and a
    short table with a script in which every call answers. *)
Definition sample_host_unreadable : Host :=
  {| files := λ _, inl (mkExc "FileNotFoundError"
                          (lit "[Errno 2] No such file or directory"));
     environ := {[ "UPSTAGE_API_KEY" := sample_key ]} |}.

Definition empty_table : DataFrame :=
  {| columns := ["id"; "err_sentence"]; rows := [] |}.

Definition short_table : DataFrame :=
  {| columns := ["id"; "err_sentence"]; rows := [sample_row_0; sample_row_4] |}.

Definition short_script : list (Exception + ChatCompletion) :=
  [ completion (lit "안녕하세요"); completion (lit " 안녕하세요. ");
    completion (lit "def."); completion (lit "def. ") ].

(** A response with several completions. *)
Definition completions (ts : list str) : Exception + ChatCompletion :=
  inr (mkChatCompletion ((λ t, mkChoice (mkCompletionMessage (Some t))) <$> ts)).

(** A script for the short table in which the answers of row 0 come
    with a second completion each. *)
Definition choice_script : list (Exception + ChatCompletion) :=
  [ completions [lit "안녕하세요 "; lit "안뇽"];
    completions [[0x0A] ++ lit " 안녕하세요. " ++ [0x09]; lit "다른 답"];
    completion (lit "def."); completion (lit "def. ") ].

(** The table of [id,err_sentence,note] with the lines [1,5,] and
    [2,6,]: two columns of integers and a column of missing values, so
    every column is numeric.  Row 0: the first answer is blank and the
    second call fails.  Row 1: the first call fails. *)
Definition numeric_row_0 : Row :=
  {[ "id" := PyInt 1; "err_sentence" := PyInt 5; "note" := PyNaN ]}.
Definition numeric_row_1 : Row :=
  {[ "id" := PyInt 2; "err_sentence" := PyInt 6; "note" := PyNaN ]}.

Definition numeric_table : DataFrame :=
  {| columns := ["id"; "err_sentence"; "note"];
     rows := [numeric_row_0; numeric_row_1] |}.

Definition numeric_script : list (Exception + ChatCompletion) :=
  [ completion (lit "  "); failure "Request timed out.";
    failure "Connection error." ].

(** The table of [id,err_sentence] with the lines [1,] and [2,]: a
    column of integers and a column of missing values.  Its row 1 is
    row 1 of the sample table, and the script fails its one call the way
    the sample script does. *)
Definition blank_row_0 : Row :=
  {[ "id" := PyInt 1; "err_sentence" := PyNaN ]}.

Definition blank_table : DataFrame :=
  {| columns := ["id"; "err_sentence"]; rows := [blank_row_0; sample_row_1] |}.

Definition blank_script : list (Exception + ChatCompletion) :=
  [ failure "Connection error."; failure "Request timed out." ].

(** A table with text identifiers and integers to correct. *)
Definition count_row_0 : Row :=
  {[ "id" := PyStr (lit "a1"); "err_sentence" := PyInt 12 ]}.
Definition count_row_1 : Row :=
  {[ "id" := PyStr (lit "a2"); "err_sentence" := PyInt (-7) ]}.

Definition count_table : DataFrame :=
  {| columns := ["id"; "err_sentence"]; rows := [count_row_0; count_row_1] |}.

(** No float of the samples needs the numeral of a fraction or of a
    number from 10^16 on. *)
Definition sample_repr (f : float) : N * str := (0x3F, []).

(** The files a run has written, each with the three columns of its
    table. *)
Definition written_cells {R} (s : @Store R)
  : list (str * list string
          * list (option pyval * option pyval * option pyval)) :=
  (λ '(path, out),
     (path, columns out,
      (λ r : Row, (r !! "id", r !! "err_sentence", r !! "cor_sentence"))
        <$> rows out))
    <$> written s.

Section Pipeline.

(** The remote service: a state and what one call does to it. *)
Context {R : Type}.
Variable create : R → OpenAI → Request → R * (Exception + ChatCompletion).

(** The module [prompts]: its two templates, and [template.format(text=t)]. *)
Variable format : str → str → Exception + str.
Variables specialist_prompt reviewer_prompt : str.

(** [repr] of a finite float that is not a whole number below 10^16:
    Python's shortest numeral that reads back as the same float, given
    by its first character and the rest. *)
Variable float_repr : float → N * str.

(** [str(f)] for a float. *)
Definition str_of_float (f : float) : str :=
  if PrimFloat.is_nan f then lit "nan"
  else if PrimFloat.is_infinity f
       then (if PrimFloat.get_sign f then lit "-inf" else lit "inf")
  else
    match float_whole f with
    | Some z =>
      if (z <? 10 ^ 16)%Z
      then (if PrimFloat.get_sign f then lit "-" else []) ++ str_of_Z z ++ lit ".0"
      else let '(c, s) := float_repr f in c :: s
    | None => let '(c, s) := float_repr f in c :: s
    end.

(** [str(v)] *)
Definition py_str (v : pyval) : str :=
  match v with
  | PyStr s => s
  | PyInt z => str_of_Z z
  | PyFloat f => str_of_float f
  end.

#[local] Abbreviation Store := (@Store R).

Definition set_remote (r : R) (rq : list Request) (s : Store) : Store :=
  mkStore r rq (stdout s) (written s) (ids s) (err_sentences s)
    (cor_sentences s) (corrected_1 s) (corrected_2 s).
Definition set_stdout (o : list str) (s : Store) : Store :=
  mkStore (remote s) (requests s) o (written s) (ids s) (err_sentences s)
    (cor_sentences s) (corrected_1 s) (corrected_2 s).
Definition set_written (w : list (str * DataFrame)) (s : Store) : Store :=
  mkStore (remote s) (requests s) (stdout s) w (ids s) (err_sentences s)
    (cor_sentences s) (corrected_1 s) (corrected_2 s).
Definition set_ids (l : list pyval) (s : Store) : Store :=
  mkStore (remote s) (requests s) (stdout s) (written s) l (err_sentences s)
    (cor_sentences s) (corrected_1 s) (corrected_2 s).
Definition set_err_sentences (l : list str) (s : Store) : Store :=
  mkStore (remote s) (requests s) (stdout s) (written s) (ids s) l
    (cor_sentences s) (corrected_1 s) (corrected_2 s).
Definition set_cor_sentences (l : list str) (s : Store) : Store :=
  mkStore (remote s) (requests s) (stdout s) (written s) (ids s)
    (err_sentences s) l (corrected_1 s) (corrected_2 s).
Definition set_corrected_1 (c : str) (s : Store) : Store :=
  mkStore (remote s) (requests s) (stdout s) (written s) (ids s)
    (err_sentences s) (cor_sentences s) c (corrected_2 s).
Definition set_corrected_2 (c : str) (s : Store) : Store :=
  mkStore (remote s) (requests s) (stdout s) (written s) (ids s)
    (err_sentences s) (cor_sentences s) (corrected_1 s) c.

(** *** Statements: a store in, a store and a value or an exception out *)

Definition M (A : Type) : Type := Store → Store * (Exception + A).

#[global] Instance M_ret : MRet M := λ A a s, (s, inr a).

#[global] Instance M_bind : MBind M := λ A B f m s,
  match m s with
  | (s', inr a) => f a s'
  | (s', inl e) => (s', inl e)
  end.

Definition raise {A} (e : Exception) : M A := λ s, (s, inl e).

Definition lift {A} (x : Exception + A) : M A := λ s, (s, x).

Definition gets {A} (f : Store → A) : M A := λ s, (s, inr (f s)).

Definition modify (f : Store → Store) : M unit := λ s, (f s, inr ()).

(** [try: body except Exception as e: handler] *)
Definition try_except {A} (body : M A) (handler : Exception → M A) : M A :=
  λ s, match body s with
       | (s', inl e) => handler e s'
       | (s', inr a) => (s', inr a)
       end.

(** [for x in xs: body]; the progress bar around the iterator shows
    on the console only. *)
Fixpoint for_each {A} (xs : list A) (body : A → M unit) : M unit :=
  match xs with
  | [] => mret ()
  | x :: xs' => body x;; for_each xs' body
  end.

Definition print (line : str) : M unit :=
  modify (λ s, set_stdout (stdout s ++ [line]) s).

(** [row[c]] *)
Definition getitem (row : Row) (c : string) : M pyval :=
  match row !! c with
  | Some v => mret v
  | None => raise (KeyError c)
  end.

(** [client.chat.completions.create(...)]: the request goes out, the
    service moves on, and the call returns or raises. *)
Definition chat_completions_create (client : OpenAI) (req : Request)
  : M ChatCompletion :=
  λ s, let '(r', res) := create (remote s) client req in
       (set_remote r' (requests s ++ [req]) s, res).

(** [df.to_csv(path, index=False)] *)
Definition to_csv (df : DataFrame) (path : str) : M unit :=
  modify (λ s, set_written (written s ++ [(path, df)]) s).

(** *** [main] *)

(** Lines 25 to 47: the table is read and checked, the [id] column is
    supplied when it is missing, the credential is checked, the client
    is built and the three result lists start empty. *)
Definition prelude (host : Host) (args : Args) : M (DataFrame * OpenAI) :=
  df ← lift (files host (input args));
  (if bool_decide ("err_sentence" ∉ columns df)
   then raise (ValueError "Input CSV must contain 'err_sentence' column")
   else mret ());;
  df ← (if bool_decide ("id" ∉ columns df)
        then
          print (lit "Warning: 'id' column not found. Generating without id.");;
          mret (setitem df "id" (temp_id <$> seq 0 (len df)))
        else mret df);
  api_key ← match environ host !! "UPSTAGE_API_KEY" with
            | Some k =>
              if truthy k then mret k
              else raise (ValueError "UPSTAGE_API_KEY not found in environment variables")
            | None =>
              raise (ValueError "UPSTAGE_API_KEY not found in environment variables")
            end;
  let client := mkOpenAI api_key (lit "https://api.upstage.ai/v1") in
  print (lit "Model: " ++ model args);;
  print (lit "Output: " ++ output args);;
  modify (set_err_sentences []);;
  modify (set_cor_sentences []);;
  modify (set_ids []);;
  mret (df, client).

(** Lines 51 to 89: the body of the loop, on one row of [df.iterrows()]. *)
Definition process_row (client : OpenAI) (args : Args) (row : Row) : M unit :=
  v ← getitem row "err_sentence";
  let text := py_str v in
  i ← getitem row "id";
  modify (λ s, set_ids (ids s ++ [i]) s);;
  modify (λ s, set_err_sentences (err_sentences s ++ [text]) s);;
  modify (set_corrected_1 []);;
  modify (set_corrected_2 []);;
  try_except
    (prompt_1 ← lift (format specialist_prompt text);
     resp_1 ← chat_completions_create client (chat_request args system_1 prompt_1);
     c ← lift (first_content resp_1);
     modify (set_corrected_1 (strip c));;
     c1 ← gets corrected_1;
     prompt_2 ← lift (format reviewer_prompt c1);
     resp_2 ← chat_completions_create client (chat_request args system_2 prompt_2);
     c ← lift (first_content resp_2);
     modify (set_corrected_2 (strip c));;
     c2 ← gets corrected_2;
     modify (λ s, set_cor_sentences (cor_sentences s ++ [c2]) s))
    (λ e,
     print (lit "Error processing: " ++ take 50 text ++ lit "... - " ++ exc_str e);;
     c1 ← gets corrected_1;
     modify (λ s, set_cor_sentences
                    (cor_sentences s ++ [if truthy c1 then c1 else text]) s)).

(** Lines 93 to 102: the output table is built and written. *)
Definition save (args : Args) : M unit :=
  l_id ← gets ids;
  l_err ← gets err_sentences;
  l_cor ← gets cor_sentences;
  out_df ← lift (DataFrame_of_columns l_id l_err l_cor);
  out_df ← lift (select out_df ["id"; "err_sentence"; "cor_sentence"]);
  to_csv out_df (output args);;
  print (lit "Wrote " ++ str_of_nat (len out_df) ++ lit " rows to " ++ output args).

Definition main (host : Host) (args : Args) : M unit :=
  '(df, client) ← prelude host args;
  for_each (iterrows df) (process_row client args);;
  save args.

(** *** What the service does for one row *)

(** One stage seen from outside: the prompt is formatted, the request
    is sent, and the content of the first completion is taken.  Each of
    the three may raise; otherwise the content comes back as it is. *)
Definition ask (template system : str) (client : OpenAI) (args : Args)
    (text : str) (r : R) : R * (Exception + str) :=
  match format template text with
  | inl e => (r, inl e)
  | inr prompt =>
    let '(r', res) := create r client (chat_request args system prompt) in
    (r', match res with
         | inl e => inl e
         | inr resp => first_content resp
         end)
  end.

(** The outcome of the specialist stage on [text] and, when that one
    succeeded, of the reviewer stage on its stripped content. *)
Definition observe (client : OpenAI) (args : Args) (text : str) (r : R)
  : (Exception + str) * option (Exception + str) :=
  let '(r1, o1) := ask specialist_prompt system_1 client args text r in
  match o1 with
  | inl e => (inl e, None)
  | inr c => (inr c, Some (ask reviewer_prompt system_2 client args (strip c) r1).2)
  end.

(** The corrected sentence that goes with an outcome. *)
Definition emitted (text : str) (o : (Exception + str) * option (Exception + str))
  : str :=
  match o with
  | (inr c1, Some (inr c2)) => strip c2
  | (inr c1, _) => if truthy (strip c1) then strip c1 else text
  | (inl _, _) => text
  end.

(** The store in which the loop of [main] reaches row [i]. *)
Definition store_before (host : Host) (args : Args) (s : Store) (i : nat) : Store :=
  match prelude host args s with
  | (s0, inr (df, client)) =>
    (for_each (take i (iterrows df)) (process_row client args) s0).1
  | (s0, inl _) => s0
  end.

(** The outcome of the two stages for row [i] in the run of [main]. *)
Definition observed (host : Host) (args : Args) (s : Store) (i : nat)
  : option ((Exception + str) * option (Exception + str)) :=
  match prelude host args s with
  | (_, inr (df, client)) =>
    row ← iterrows df !! i;
    v ← row !! "err_sentence";
    Some (observe client args (py_str v) (remote (store_before host args s i)))
  | (_, inl _) => None
  end.

(** The table the loop runs over: [df] with its [id] column. *)
Definition with_id (df : DataFrame) : DataFrame :=
  if bool_decide ("id" ∉ columns df)
  then setitem df "id" (temp_id <$> seq 0 (len df))
  else df.

(** The value the loop reads where the table stores [v]. *)
Definition as_read (df : DataFrame) (v : pyval) : pyval :=
  upcast (common_dtype (with_id df)) v.

(** The cell of a row, for a row that has it. *)
Definition cell (row : Row) (c : string) : pyval := default PyNaN (row !! c).

(** The run can start: the table is there with its [err_sentence]
    column and the credential is set. *)
Definition valid_run (host : Host) (args : Args) (df : DataFrame) (key : str) : Prop :=
  files host (input args) = inr df ∧ well_formed df ∧
  "err_sentence" ∈ columns df ∧
  environ host !! "UPSTAGE_API_KEY" = Some key ∧ truthy key = true.

(** [main] returns normally and has written the table [out], and only
    it, under [args.output]. *)
Definition writes (host : Host) (args : Args) (s : Store) (out : DataFrame) : Prop :=
  ∃ s', main host args s = (s', inr ()) ∧
        written s' = written s ++ [(output args, out)].

(** The line the handler prints at line 88. *)
Definition error_line (text : str) (e : Exception) : str :=
  lit "Error processing: " ++ take 50 text ++ lit "... - " ++ exc_str e.

(** A request of the specialist stage or of the reviewer stage. *)
Definition stage_request (args : Args) (q : Request) : Prop :=
  ∃ prompt, q = chat_request args system_1 prompt
            ∨ q = chat_request args system_2 prompt.

(** A row counts as failed unless both of its stages gave content. *)
Definition row_failed
    (o : option ((Exception + str) * option (Exception + str))) : bool :=
  match o with
  | Some (inr _, Some (inr _)) => false
  | _ => true
  end.

(** The lines lines 31, 41 and 42 print before the loop. *)
Definition header (args : Args) (df : DataFrame) : list str :=
  (if bool_decide ("id" ∉ columns df)
   then [lit "Warning: 'id' column not found. Generating without id."]
   else [])
  ++ [lit "Model: " ++ model args; lit "Output: " ++ output args].

(** *** The steps of [main] *)

Ltac run_monad :=
  unfold mbind, M_bind, mret, M_ret, try_except, lift, modify, gets, print,
    raise, to_csv, chat_completions_create;
  cbn [fst snd
       set_remote set_stdout set_written set_ids set_err_sentences
       set_cor_sentences set_corrected_1 set_corrected_2
       remote requests stdout written ids err_sentences cor_sentences
       corrected_1 corrected_2].

Ltac stop_here := eexists; repeat split; reflexivity.

Lemma process_row_spec client args (row : Row) (s : Store) v i :
  row !! "err_sentence" = Some v → row !! "id" = Some i →
  ∃ s', process_row client args row s = (s', inr ()) ∧
    ids s' = ids s ++ [i] ∧
    err_sentences s' = err_sentences s ++ [py_str v] ∧
    cor_sentences s' =
      cor_sentences s
        ++ [emitted (py_str v) (observe client args (py_str v) (remote s))] ∧
    written s' = written s.
Proof.
  intros Hv Hi.
  unfold process_row, getitem. rewrite Hv, Hi.
  unfold observe, ask, emitted. run_monad.
  destruct (format specialist_prompt (py_str v)) as [e|p1]; run_monad;
    [stop_here|].
  destruct (create (remote s) client (chat_request args system_1 p1))
    as [r1 [e|resp1]]; run_monad; [stop_here|].
  destruct (first_content resp1) as [e|c1]; run_monad; [stop_here|].
  destruct (format reviewer_prompt (strip c1)) as [e|p2]; run_monad;
    [stop_here|].
  destruct (create r1 client (chat_request args system_2 p2))
    as [r2 [e|resp2]]; run_monad; [stop_here|].
  destruct (first_content resp2) as [e|c2]; run_monad; stop_here.
Qed.

Lemma first_content_inr resp c :
  first_content resp = inr c ↔
  ∃ ch rest, choices resp = ch :: rest ∧ message_content (message ch) = Some c.
Proof.
  unfold first_content. split.
  - destruct (choices resp) as [|ch rest]; [done|].
    destruct (message_content (message ch)) as [t|] eqn:E; [|done].
    intros [= <-]. by exists ch, rest.
  - intros (ch & rest & -> & ->). done.
Qed.

(** What the outcomes say about the calls: both stages give content
    exactly when both prompts are formatted, both calls return, and both
    responses have a first choice with content. *)
Lemma observe_both client args text r c1 c2 :
  observe client args text r = (inr c1, Some (inr c2)) ↔
  ∃ p1 r1 resp1 p2 r2 resp2,
    format specialist_prompt text = inr p1 ∧
    create r client (chat_request args system_1 p1) = (r1, inr resp1) ∧
    first_content resp1 = inr c1 ∧
    format reviewer_prompt (strip c1) = inr p2 ∧
    create r1 client (chat_request args system_2 p2) = (r2, inr resp2) ∧
    first_content resp2 = inr c2.
Proof.
  unfold observe, ask. split.
  - destruct (format specialist_prompt text) as [e|p1]; [done|].
    destruct (create r client (chat_request args system_1 p1))
      as [r1 [e|resp1]] eqn:E1; [done|].
    destruct (first_content resp1) as [e|c] eqn:F1; [done|].
    destruct (format reviewer_prompt (strip c)) as [e|p2] eqn:G2;
      [simpl; congruence|].
    destruct (create r1 client (chat_request args system_2 p2))
      as [r2 [e|resp2]] eqn:E2; [simpl; congruence|].
    simpl. intros H. injection H as -> H.
    exists p1, r1, resp1, p2, r2, resp2. by rewrite G2, E2.
  - intros (p1 & r1 & resp1 & p2 & r2 & resp2 & -> & -> & -> & -> & -> & H).
    simpl. by rewrite H.
Qed.

(** The first stage fails exactly when its prompt cannot be formatted,
    its call raises, or its response has no first choice with content. *)
Lemma observe_first_failed client args text r e o2 :
  observe client args text r = (inl e, o2) ↔
  o2 = None ∧
  (format specialist_prompt text = inl e
   ∨ ∃ p1, format specialist_prompt text = inr p1 ∧
       ((create r client (chat_request args system_1 p1)).2 = inl e
        ∨ ∃ resp1, (create r client (chat_request args system_1 p1)).2 = inr resp1
                   ∧ first_content resp1 = inl e)).
Proof.
  unfold observe, ask.
  destruct (format specialist_prompt text) as [e'|p1]; simpl.
  { split.
    - intros H. injection H as -> <-. split; [done|]. by left.
    - intros (-> & [H|(p & H & _)]); congruence. }
  destruct (create r client (chat_request args system_1 p1))
    as [r1 res] eqn:E1; simpl.
  assert (∀ p, @inr Exception str p1 = inr p →
               (create r client (chat_request args system_1 p)).2 = res) as Hres.
  { intros p [= <-]. by rewrite E1. }
  destruct res as [e'|resp1].
  { split.
    - intros H. injection H as -> <-. split; [done|]. right.
      exists p1. split; [done|]. left. by apply Hres.
    - intros (-> & [H|(p & H & [H'|(resp & H' & _)])]);
        [congruence|rewrite (Hres p H) in H'..]; congruence. }
  destruct (first_content resp1) as [e'|c] eqn:F1.
  - split.
    + intros H. injection H as -> <-. split; [done|]. right.
      exists p1. split; [done|]. right. exists resp1. split; [|done].
      by apply Hres.
    + intros (-> & [H|(p & H & [H'|(resp & H' & H'')])]);
        [congruence|rewrite (Hres p H) in H'..]; congruence.
  - split; [done|].
    intros (-> & [H|(p & H & [H'|(resp & H' & H'')])]);
      [congruence|rewrite (Hres p H) in H'..]; congruence.
Qed.

(** The first stage gives content and the second fails: the second
    stage is run on the stripped content, in the state the first call
    left the service in, and raises. *)
Lemma observe_second_failed client args text r c1 e :
  observe client args text r = (inr c1, Some (inl e)) ↔
  ∃ p1 r1 resp1,
    format specialist_prompt text = inr p1 ∧
    create r client (chat_request args system_1 p1) = (r1, inr resp1) ∧
    first_content resp1 = inr c1 ∧
    (ask reviewer_prompt system_2 client args (strip c1) r1).2 = inl e.
Proof.
  unfold observe. unfold ask at 1. split.
  - destruct (format specialist_prompt text) as [e'|p1]; [done|].
    destruct (create r client (chat_request args system_1 p1))
      as [r1 [e'|resp1]] eqn:E1; [done|].
    destruct (first_content resp1) as [e'|c] eqn:F1; [done|].
    intros H. injection H as -> H. by exists p1, r1, resp1.
  - intros (p1 & r1 & resp1 & -> & -> & -> & H). by rewrite H.
Qed.

Lemma for_each_cons {A} (x : A) xs (body : A → M unit) s s1 :
  body x s = (s1, inr ()) →
  for_each (x :: xs) body s = for_each xs body s1.
Proof. intros E. simpl. unfold mbind, M_bind. by rewrite E. Qed.

Lemma for_each_rows client args (rs : list Row) :
  Forall (λ r : Row, is_Some (r !! "err_sentence") ∧ is_Some (r !! "id")) rs →
  ∀ s, ∃ s' l_cor,
    for_each rs (process_row client args) s = (s', inr ()) ∧
    written s' = written s ∧
    ids s' = ids s ++ ((λ r, cell r "id") <$> rs) ∧
    err_sentences s' =
      err_sentences s ++ ((λ r, py_str (cell r "err_sentence")) <$> rs) ∧
    cor_sentences s' = cor_sentences s ++ l_cor ∧
    length l_cor = length rs ∧
    ∀ i row, rs !! i = Some row →
      l_cor !! i =
        Some (emitted (py_str (cell row "err_sentence"))
                (observe client args (py_str (cell row "err_sentence"))
                   (remote (for_each (take i rs) (process_row client args) s).1))).
Proof.
  induction 1 as [|row rs [[v Hv] [i Hi]] _ IH]; intros s.
  - exists s, []. rewrite !app_nil_r. repeat split; try done.
  - destruct (process_row_spec client args row s v i Hv Hi)
      as (s1 & E1 & Hid & Herr & Hcor & Hw).
    destruct (IH s1) as (s' & l & E & Hw' & Hid' & Herr' & Hcor' & Hlen & Hl).
    exists s', (emitted (py_str v) (observe client args (py_str v) (remote s)) :: l).
    rewrite (for_each_cons _ _ _ _ _ E1).
    repeat split.
    + exact E.
    + congruence.
    + rewrite Hid', Hid, <- app_assoc. simpl. unfold cell at 2. by rewrite Hi.
    + rewrite Herr', Herr, <- app_assoc. simpl. unfold cell at 2. by rewrite Hv.
    + rewrite Hcor', Hcor, <- app_assoc. done.
    + simpl. by rewrite Hlen.
    + intros [|j] row' Hrow'; simpl in Hrow'.
      * inversion Hrow'; subst row'. simpl. unfold cell. by rewrite Hv.
      * simpl take. rewrite (for_each_cons _ _ _ _ _ E1). by apply Hl.
Qed.

Lemma prelude_ok host args s df key :
  valid_run host args df key →
  ∃ s0,
    prelude host args s
      = (s0, inr (with_id df, mkOpenAI key (lit "https://api.upstage.ai/v1"))) ∧
    remote s0 = remote s ∧ requests s0 = requests s ∧
    written s0 = written s ∧
    ids s0 = [] ∧ err_sentences s0 = [] ∧ cor_sentences s0 = [].
Proof.
  intros (Hf & _ & Herr & Hk & Ht).
  unfold prelude, with_id. rewrite Hf, Hk, Ht. run_monad.
  rewrite (bool_decide_eq_false_2 ("err_sentence" ∉ columns df)) by tauto.
  destruct (bool_decide ("id" ∉ columns df)); simpl; stop_here.
Qed.

Lemma well_formed_cell df i (row : Row) c :
  well_formed df → rows df !! i = Some row →
  c ∈ columns df ↔ is_Some (row !! c).
Proof.
  intros Hwf Hrow.
  pose proof (Forall_lookup_1 _ _ _ _ Hwf Hrow) as Hdom; simpl in Hdom.
  rewrite <- elem_of_dom, Hdom. by rewrite elem_of_list_to_set.
Qed.

Lemma with_id_length df : length (rows (with_id df)) = length (rows df).
Proof.
  unfold with_id. case_bool_decide; [|done]. simpl.
  rewrite length_zip_with, length_fmap, length_seq. unfold len. lia.
Qed.

Lemma with_id_lookup df i (row : Row) :
  well_formed df → "err_sentence" ∈ columns df →
  rows df !! i = Some row →
  ∃ row' : Row,
    rows (with_id df) !! i = Some row' ∧
    row' !! "err_sentence" = row !! "err_sentence" ∧
    is_Some (row !! "err_sentence") ∧
    (if bool_decide ("id" ∈ columns df)
     then row' !! "id" = row !! "id" ∧ is_Some (row !! "id")
     else row' !! "id" = Some (temp_id i)).
Proof.
  intros Hwf Herr Hrow.
  pose proof (proj1 (well_formed_cell df i row "err_sentence" Hwf Hrow) Herr)
    as Hsome.
  unfold with_id. case_bool_decide as Hid.
  - rewrite bool_decide_eq_false_2 by done.
    exists (<["id" := temp_id i]> row). simpl. repeat split; try done.
    + rewrite lookup_zip_with, Hrow, list_lookup_fmap. simpl.
      rewrite lookup_seq_lt; [done|].
      apply lookup_lt_Some in Hrow. exact Hrow.
    + by rewrite lookup_insert_ne.
    + by rewrite lookup_insert_eq.
  - assert ("id" ∈ columns df) as Hin by (by destruct (decide ("id" ∈ columns df))).
    rewrite bool_decide_eq_true_2 by done.
    exists row. repeat split; try done.
    by apply (well_formed_cell df i row "id" Hwf Hrow).
Qed.

Lemma out_row_lookup_id i e c : out_row i e c !! "id" = Some i.
Proof. unfold out_row. by rewrite lookup_insert_eq. Qed.

Lemma out_row_lookup_err i e c : out_row i e c !! "err_sentence" = Some (PyStr e).
Proof.
  unfold out_row. rewrite lookup_insert_ne by done. by rewrite lookup_insert_eq.
Qed.

Lemma out_row_lookup_cor i e c : out_row i e c !! "cor_sentence" = Some (PyStr c).
Proof.
  unfold out_row. rewrite !lookup_insert_ne by done.
  by rewrite lookup_singleton_eq.
Qed.

Lemma out_row_select i e c :
  filter (λ kv : string * pyval,
            kv.1 ∈ ["id"; "err_sentence"; "cor_sentence"]) (out_row i e c)
  = out_row i e c.
Proof.
  apply map_filter_id. intros k x Hk. simpl. unfold out_row in Hk.
  destruct (decide (k = "id")) as [->|]; [set_solver|].
  rewrite lookup_insert_ne in Hk by done.
  destruct (decide (k = "err_sentence")) as [->|]; [set_solver|].
  rewrite lookup_insert_ne in Hk by done.
  apply lookup_singleton_Some in Hk as [<- _]. set_solver.
Qed.

Lemma select_out (l : list Row) :
  select {| columns := ["id"; "err_sentence"; "cor_sentence"]; rows := l |}
    ["id"; "err_sentence"; "cor_sentence"]
  = inr {| columns := ["id"; "err_sentence"; "cor_sentence"];
           rows := (λ r : Row,
                      filter (λ kv : string * pyval,
                                kv.1 ∈ ["id"; "err_sentence"; "cor_sentence"]) r)
                   <$> l |}.
Proof. reflexivity. Qed.

Lemma save_ok args s :
  length (ids s) = length (err_sentences s) →
  length (err_sentences s) = length (cor_sentences s) →
  ∃ s',
    save args s = (s', inr ()) ∧
    written s' =
      written s
        ++ [(output args,
             {| columns := ["id"; "err_sentence"; "cor_sentence"];
                rows := zip_with (λ i ec, out_row i ec.1 ec.2) (ids s)
                          (zip (err_sentences s) (cor_sentences s)) |})].
Proof.
  intros H1 H2. unfold save, DataFrame_of_columns. run_monad.
  rewrite decide_True by done. rewrite select_out. run_monad.
  eexists. split; [reflexivity|]. run_monad. do 3 f_equal.
  rewrite <- (list_fmap_id (zip_with _ _ _)) at 2. f_equal.
  apply list_fmap_ext. intros j x Hx.
  apply lookup_zip_with_Some in Hx as (a & [b c] & -> & _ & _).
  apply out_row_select.
Qed.

Lemma iterrows_length df : length (iterrows df) = length (rows df).
Proof. unfold iterrows. by rewrite length_fmap. Qed.

Lemma iterrows_lookup df i :
  iterrows df !! i
  = (λ r : Row, upcast (common_dtype df) <$> r) <$> rows df !! i.
Proof. unfold iterrows. by rewrite list_lookup_fmap. Qed.

(** Row [i] as the loop gets it: the cells of row [i] of the table,
    each as it is read, and the placeholder when there is no [id]. *)
Lemma loop_row_lookup df i (row : Row) :
  well_formed df → "err_sentence" ∈ columns df →
  rows df !! i = Some row →
  ∃ (seen : Row) v,
    iterrows (with_id df) !! i = Some seen ∧
    row !! "err_sentence" = Some v ∧
    seen !! "err_sentence" = Some (as_read df v) ∧
    (if bool_decide ("id" ∈ columns df)
     then ∃ id0, row !! "id" = Some id0 ∧ seen !! "id" = Some (as_read df id0)
     else seen !! "id" = Some (temp_id i)).
Proof.
  intros Hwf Herr Hrow.
  destruct (with_id_lookup df i row Hwf Herr Hrow)
    as (row' & Hrow' & He & [v Hv] & Hid).
  exists (upcast (common_dtype (with_id df)) <$> row'), v.
  split; [by rewrite iterrows_lookup, Hrow'|]. split; [done|].
  split; [by rewrite lookup_fmap, He, Hv|].
  destruct (bool_decide ("id" ∈ columns df)).
  - destruct Hid as [Hid [id0 Hid0]]. exists id0. split; [done|].
    by rewrite lookup_fmap, Hid, Hid0.
  - rewrite lookup_fmap, Hid. simpl. unfold temp_id.
    by destruct (common_dtype (with_id df)).
Qed.

Lemma loop_rows_ok df :
  well_formed df → "err_sentence" ∈ columns df →
  Forall (λ r : Row, is_Some (r !! "err_sentence") ∧ is_Some (r !! "id"))
    (iterrows (with_id df)).
Proof.
  intros Hwf Herr. apply Forall_lookup. intros i seen Hseen.
  assert (is_Some (rows df !! i)) as [row Hrow].
  { apply lookup_lt_is_Some. rewrite <- with_id_length, <- iterrows_length.
    by apply lookup_lt_Some in Hseen. }
  destruct (loop_row_lookup df i row Hwf Herr Hrow)
    as (seen' & v & Hseen' & _ & He & Hid).
  assert (seen' = seen) as -> by congruence.
  split; [by rewrite He|].
  destruct (bool_decide ("id" ∈ columns df)).
  - destruct Hid as (id0 & _ & ->). done.
  - rewrite Hid. done.
Qed.

(** [main] row by row: it returns, it writes one table, and row [i] of
    that table is made of the identifier and the text of row [i] of the
    input, as the loop reads them, and of what the service did for that
    row. *)
Lemma main_spec host args s df key :
  valid_run host args df key →
  ∃ out, writes host args s out ∧
    columns out = ["id"; "err_sentence"; "cor_sentence"] ∧
    length (rows out) = length (rows df) ∧
    ∀ i (row : Row), rows df !! i = Some row →
      ∃ v idv o,
        row !! "err_sentence" = Some v ∧
        (if bool_decide ("id" ∈ columns df)
         then ∃ id0, row !! "id" = Some id0 ∧ idv = as_read df id0
         else idv = temp_id i) ∧
        observed host args s i = Some o ∧
        rows out !! i
          = Some (out_row idv (py_str (as_read df v))
                    (emitted (py_str (as_read df v)) o)).
Proof.
  intros Hv. pose proof Hv as (Hf & Hwf & Herr & Hk & Ht).
  destruct (prelude_ok host args s df key Hv)
    as (s0 & E0 & Hr0 & Hq0 & Hw0 & Hi0 & He0 & Hc0).
  set (client := mkOpenAI key (lit "https://api.upstage.ai/v1")) in *.
  destruct (for_each_rows client args (iterrows (with_id df))
              (loop_rows_ok df Hwf Herr) s0)
    as (s1 & l & E1 & Hw1 & Hid1 & Herr1 & Hcor1 & Hlen & Hl).
  rewrite Hi0 in Hid1. rewrite He0 in Herr1. rewrite Hc0 in Hcor1.
  simpl in Hid1, Herr1, Hcor1.
  destruct (save_ok args s1) as (s2 & E2 & Hw2).
  { by rewrite Hid1, Herr1, !length_fmap. }
  { by rewrite Herr1, Hcor1, length_fmap. }
  eexists. split; [|split; [|split]].
  - exists s2. split.
    + unfold main, mbind, M_bind. rewrite E0. cbn beta iota.
      rewrite E1. exact E2.
    + rewrite Hw2, Hw1, Hw0. reflexivity.
  - reflexivity.
  - simpl. rewrite length_zip_with, length_zip, Hid1, Herr1, Hcor1.
    rewrite !length_fmap, Hlen, iterrows_length, with_id_length. lia.
  - intros i row Hrow.
    destruct (loop_row_lookup df i row Hwf Herr Hrow)
      as (seen & v & Hseen & Hcell & He & Hid).
    exists v, (cell seen "id"), (observe client args (py_str (as_read df v))
                 (remote (for_each (take i (iterrows (with_id df)))
                            (process_row client args) s0).1)).
    assert (cell seen "err_sentence" = as_read df v) as Hc.
    { unfold cell. by rewrite He. }
    repeat split.
    + exact Hcell.
    + destruct (bool_decide ("id" ∈ columns df)).
      * destruct Hid as (id0 & Hid0 & Hs). exists id0. split; [done|].
        unfold cell. by rewrite Hs.
      * unfold cell. by rewrite Hid.
    + unfold observed, store_before. rewrite E0. cbn beta iota.
      rewrite Hseen. simpl. rewrite He. reflexivity.
    + simpl. rewrite lookup_zip_with, Hid1, Herr1, Hcor1.
      rewrite list_lookup_fmap, Hseen. simpl.
      rewrite lookup_zip_with, list_lookup_fmap, Hseen. simpl.
      rewrite (Hl i seen Hseen). simpl. by rewrite Hc.
Qed.

Lemma writes_functional host args s out out' :
  writes host args s out → writes host args s out' → out = out'.
Proof.
  intros (s1 & E1 & W1) (s2 & E2 & W2).
  rewrite E1 in E2. injection E2 as <-. rewrite W1 in W2.
  apply app_inj_tail in W2 as [_ W2]. congruence.
Qed.

(** *** Text that went through [strip] *)

Lemma lstrip_suffix s : ∃ k, s = k ++ lstrip s.
Proof.
  induction s as [|c s [k IH]]; [by exists []|]. simpl.
  destruct (isspace c); [|by exists []].
  exists (c :: k). simpl. by rewrite <- IH.
Qed.

Lemma lstrip_head s c : head (lstrip s) = Some c → isspace c = false.
Proof.
  induction s as [|a s IH]; [done|]. simpl.
  destruct (isspace a) eqn:E; [done|]. simpl. by intros [= <-].
Qed.

Lemma rstrip_prefix s : ∃ k, s = rstrip s ++ k.
Proof.
  unfold rstrip. destruct (lstrip_suffix (reverse s)) as [k Hk].
  exists (reverse k).
  rewrite <- reverse_app, <- Hk. by rewrite reverse_involutive.
Qed.

Lemma strip_head s c : head (strip s) = Some c → isspace c = false.
Proof.
  unfold strip. destruct (rstrip_prefix (lstrip s)) as [k Hk]. intros H.
  apply (lstrip_head s). rewrite Hk.
  destruct (rstrip (lstrip s)); [done|]. exact H.
Qed.

Lemma strip_last s c : last (strip s) = Some c → isspace c = false.
Proof.
  unfold strip, rstrip. rewrite last_reverse. apply lstrip_head.
Qed.

Lemma lstrip_split s :
  ∃ k, s = k ++ lstrip s ∧ Forall (λ c, isspace c = true) k.
Proof.
  induction s as [|c s (k & IH & Hk)]; [by exists []|]. simpl.
  destruct (isspace c) eqn:E; [|by exists []].
  exists (c :: k). split; [simpl; by rewrite <- IH|]. by constructor.
Qed.

Lemma rstrip_split s :
  ∃ k, s = rstrip s ++ k ∧ Forall (λ c, isspace c = true) k.
Proof.
  unfold rstrip. destruct (lstrip_split (reverse s)) as (k & Hk & Hsp).
  exists (reverse k). split.
  - rewrite <- reverse_app, <- Hk. by rewrite reverse_involutive.
  - by apply Forall_reverse.
Qed.

(** [strip] takes whitespace, and nothing else, off the two ends. *)
Lemma strip_split s :
  ∃ l r, s = l ++ strip s ++ r ∧
    Forall (λ c, isspace c = true) l ∧ Forall (λ c, isspace c = true) r.
Proof.
  destruct (lstrip_split s) as (l & Hl & Hsl).
  destruct (rstrip_split (lstrip s)) as (r & Hr & Hsr).
  exists l, r. unfold strip. by rewrite <- Hr.
Qed.

(** *** Values as the loop reads them *)

Lemma str_of_float_nonempty f : str_of_float f ≠ [].
Proof.
  unfold str_of_float.
  destruct (PrimFloat.is_nan f); [by vm_compute|].
  destruct (PrimFloat.is_infinity f).
  { destruct (PrimFloat.get_sign f); by vm_compute. }
  assert (∀ a b : str, a ++ b ++ lit ".0" ≠ []) as Hdot.
  { intros a b H. apply app_eq_nil in H as [_ H].
    apply app_eq_nil in H as [_ H]. by vm_compute in H. }
  destruct (float_whole f) as [z|].
  - destruct (z <? 10 ^ 16)%Z; [apply Hdot|]. by destruct (float_repr f).
  - by destruct (float_repr f).
Qed.

Lemma as_read_str df t : as_read df (PyStr t) = PyStr t.
Proof. unfold as_read, upcast. by destruct (common_dtype _). Qed.

Lemma as_read_float df f : as_read df (PyFloat f) = PyFloat f.
Proof. unfold as_read, upcast. by destruct (common_dtype _). Qed.

Lemma as_read_other df v :
  common_dtype (with_id df) ≠ Float64 → as_read df v = v.
Proof. unfold as_read, upcast. by destruct (common_dtype _), v. Qed.

Lemma as_read_int df z :
  common_dtype (with_id df) = Float64 →
  as_read df (PyInt z) = PyFloat (float_of_Z z).
Proof. unfold as_read, upcast. by intros ->. Qed.

Lemma py_str_as_read_nonempty df v : py_str v ≠ [] → py_str (as_read df v) ≠ [].
Proof.
  unfold as_read, upcast. destruct (common_dtype _), v; try done.
  intros _. apply str_of_float_nonempty.
Qed.

(** *** Decimal numerals *)

Lemma utf8_decode_ascii bs :
  Forall (λ b, b < 0x80) bs → utf8_decode bs = bs.
Proof.
  induction 1 as [|b bs Hb _ IH]; [done|]. simpl.
  apply N.ltb_lt in Hb. rewrite Hb. by rewrite IH.
Qed.

Lemma string_of_uint_digits d :
  Forall (λ b, b < 0x80)
    (Ascii.N_of_ascii <$> String.list_ascii_of_string (NilEmpty.string_of_uint d)).
Proof.
  induction d; simpl; constructor; try done; by vm_compute.
Qed.

Lemma ascii_of_N_of_ascii (l : list Ascii.ascii) :
  Ascii.ascii_of_N <$> (Ascii.N_of_ascii <$> l) = l.
Proof.
  induction l as [|a l IH]; [done|].
  by rewrite !fmap_cons, Ascii.ascii_N_embedding, IH.
Qed.

Lemma str_of_nat_inj i j : str_of_nat i = str_of_nat j → i = j.
Proof.
  unfold str_of_nat, lit. intros H.
  assert (∀ n, NilZero.string_of_uint (Nat.to_uint n)
               = NilEmpty.string_of_uint (Nat.to_uint n)) as Hnz.
  { intros n. destruct (Nat.to_uint n) eqn:E; try done.
    pose proof (DecimalNat.Unsigned.of_to n) as Hn. rewrite E in Hn.
    simpl in Hn. subst n. discriminate E. }
  rewrite !Hnz in H.
  rewrite !utf8_decode_ascii in H by apply string_of_uint_digits.
  apply (f_equal (fmap Ascii.ascii_of_N)) in H.
  rewrite !ascii_of_N_of_ascii in H.
  apply (f_equal String.string_of_list_ascii) in H.
  rewrite !String.string_of_list_ascii_of_string in H.
  apply DecimalNat.Unsigned.to_uint_inj.
  apply (f_equal NilEmpty.uint_of_string) in H.
  rewrite !NilEmpty.usu in H. congruence.
Qed.

Lemma temp_id_inj i j : temp_id i = temp_id j → i = j.
Proof.
  unfold temp_id. intros H.
  assert (lit "temp_id_" ++ str_of_nat i = lit "temp_id_" ++ str_of_nat j)
    as H' by congruence.
  apply app_inv_head in H'. by apply str_of_nat_inj.
Qed.

(** *** What a row sends and prints *)

Lemma process_row_trace client args (row : Row) (s : Store) v i :
  row !! "err_sentence" = Some v → row !! "id" = Some i →
  ∃ s' sent,
    process_row client args row s = (s', inr ()) ∧
    requests s' = requests s ++ sent ∧
    (length sent ≤ 2)%nat ∧
    Forall (stage_request args) sent ∧
    match observe client args (py_str v) (remote s) with
    | (inr c1, Some (inr c2)) =>
      stdout s' = stdout s ∧
      ∃ p1 p2,
        format specialist_prompt (py_str v) = inr p1 ∧
        format reviewer_prompt (strip c1) = inr p2 ∧
        sent = [chat_request args system_1 p1; chat_request args system_2 p2]
    | (inr c1, Some (inl e)) =>
      stdout s' = stdout s ++ [error_line (py_str v) e] ∧
      ∃ p1,
        format specialist_prompt (py_str v) = inr p1 ∧
        ((format reviewer_prompt (strip c1) = inl e ∧
          sent = [chat_request args system_1 p1])
         ∨ ∃ p2,
             format reviewer_prompt (strip c1) = inr p2 ∧
             sent = [chat_request args system_1 p1;
                     chat_request args system_2 p2])
    | (inl e, _) =>
      stdout s' = stdout s ++ [error_line (py_str v) e] ∧
      ((format specialist_prompt (py_str v) = inl e ∧ sent = [])
       ∨ ∃ p1,
           format specialist_prompt (py_str v) = inr p1 ∧
           sent = [chat_request args system_1 p1])
    | (inr _, None) => True
    end.
Proof.
  intros Hv Hi. unfold process_row, getitem. rewrite Hv, Hi.
  unfold observe, ask, error_line. run_monad.
  assert (∀ p, stage_request args (chat_request args system_1 p)) as Hq1
    by (intros p; exists p; by left).
  assert (∀ p, stage_request args (chat_request args system_2 p)) as Hq2
    by (intros p; exists p; by right).
  destruct (format specialist_prompt (py_str v)) as [e|p1]; run_monad.
  { eexists _, []. split; [reflexivity|]. run_monad.
    split; [by rewrite app_nil_r|]. split; [simpl; lia|].
    split; [constructor|]. split; [reflexivity|]. by left. }
  destruct (create (remote s) client (chat_request args system_1 p1))
    as [r1 [e|resp1]]; run_monad.
  { eexists _, [chat_request args system_1 p1]. split; [reflexivity|]. run_monad.
    split; [reflexivity|]. split; [simpl; lia|].
    split; [constructor; [apply Hq1|constructor]|].
    split; [reflexivity|]. right. by exists p1. }
  destruct (first_content resp1) as [e|c1]; run_monad.
  { eexists _, [chat_request args system_1 p1]. split; [reflexivity|]. run_monad.
    split; [reflexivity|]. split; [simpl; lia|].
    split; [constructor; [apply Hq1|constructor]|].
    split; [reflexivity|]. right. by exists p1. }
  destruct (format reviewer_prompt (strip c1)) as [e|p2]; run_monad.
  { eexists _, [chat_request args system_1 p1]. split; [reflexivity|]. run_monad.
    split; [reflexivity|]. split; [simpl; lia|].
    split; [constructor; [apply Hq1|constructor]|].
    split; [reflexivity|]. exists p1. split; [reflexivity|]. by left. }
  assert (Forall (stage_request args)
            [chat_request args system_1 p1; chat_request args system_2 p2])
    as Hboth by (constructor; [apply Hq1|constructor; [apply Hq2|constructor]]).
  destruct (create r1 client (chat_request args system_2 p2))
    as [r2 [e|resp2]]; run_monad.
  { eexists _, [chat_request args system_1 p1; chat_request args system_2 p2].
    split; [reflexivity|]. run_monad.
    split; [by rewrite <- app_assoc|]. split; [simpl; lia|].
    split; [exact Hboth|].
    split; [reflexivity|]. exists p1. split; [reflexivity|]. right. by exists p2. }
  destruct (first_content resp2) as [e|c2]; run_monad.
  { eexists _, [chat_request args system_1 p1; chat_request args system_2 p2].
    split; [reflexivity|]. run_monad.
    split; [by rewrite <- app_assoc|]. split; [simpl; lia|].
    split; [exact Hboth|].
    split; [reflexivity|]. exists p1. split; [reflexivity|]. right. by exists p2. }
  eexists _, [chat_request args system_1 p1; chat_request args system_2 p2].
  split; [reflexivity|]. run_monad.
  split; [by rewrite <- app_assoc|]. split; [simpl; lia|].
  split; [exact Hboth|].
  split; [reflexivity|]. by exists p1, p2.
Qed.

Lemma for_each_app {A} (xs ys : list A) (body : A → M unit) s :
  for_each (xs ++ ys) body s
  = match for_each xs body s with
    | (s1, inr _) => for_each ys body s1
    | (s1, inl e) => (s1, inl e)
    end.
Proof.
  revert s. induction xs as [|x xs IH]; intros s; [done|].
  simpl. unfold mbind, M_bind. destruct (body x s) as [s1 [e|[]]]; [done|].
  apply IH.
Qed.

Lemma for_each_one {A} (x : A) (body : A → M unit) s :
  (for_each [x] body s).1 = (body x s).1.
Proof.
  simpl. unfold mbind, M_bind, mret, M_ret.
  by destruct (body x s) as [s1 [e|[]]].
Qed.

(** The store after row [i] is the store before it, taken through the
    body of the loop on that row. *)
Lemma run_step host args s df key i (row : Row) v :
  valid_run host args df key →
  rows df !! i = Some row → row !! "err_sentence" = Some v →
  ∃ (seen : Row) idv,
    seen !! "err_sentence" = Some (as_read df v) ∧ seen !! "id" = Some idv ∧
    store_before host args s (S i)
      = (process_row (mkOpenAI key (lit "https://api.upstage.ai/v1")) args seen
           (store_before host args s i)).1 ∧
    observed host args s i
      = Some (observe (mkOpenAI key (lit "https://api.upstage.ai/v1")) args
                (py_str (as_read df v)) (remote (store_before host args s i))).
Proof.
  intros Hv Hrow Hcell. pose proof Hv as (Hf & Hwf & Herr & Hk & Ht).
  destruct (prelude_ok host args s df key Hv) as (s0 & E0 & _).
  destruct (loop_row_lookup df i row Hwf Herr Hrow)
    as (seen & v' & Hseen & Hv' & He & Hid).
  assert (v' = v) as -> by congruence.
  assert (is_Some (seen !! "id")) as [idv Hidv].
  { destruct (bool_decide ("id" ∈ columns df)).
    - destruct Hid as (id0 & _ & ->). done.
    - rewrite Hid. eauto. }
  exists seen, idv. split; [done|]. split; [done|].
  unfold observed, store_before. rewrite E0. cbn beta iota. split.
  - rewrite (take_S_r _ _ _ Hseen), for_each_app.
    destruct (for_each_rows (mkOpenAI key (lit "https://api.upstage.ai/v1"))
                args (take i (iterrows (with_id df)))
                (Forall_take _ _ _ (loop_rows_ok df Hwf Herr)) s0)
      as (s1 & l & E1 & _).
    rewrite E1. cbn beta iota. apply for_each_one.
  - rewrite Hseen. simpl. rewrite He. reflexivity.
Qed.

Lemma for_each_requests client args (rs : list Row) :
  Forall (λ r : Row, is_Some (r !! "err_sentence") ∧ is_Some (r !! "id")) rs →
  ∀ s, ∃ s' l,
    for_each rs (process_row client args) s = (s', inr ()) ∧
    requests s' = requests s ++ l ∧
    (length l ≤ 2 * length rs)%nat ∧
    Forall (stage_request args) l.
Proof.
  induction 1 as [|row rs [[v Hv] [i Hi]] _ IH]; intros s.
  - exists s, []. rewrite app_nil_r. split_and!; [done|done|simpl; lia|constructor].
  - destruct (process_row_trace client args row s v i Hv Hi)
      as (s1 & sent & E1 & Hr1 & Hlen1 & Hall1 & _).
    destruct (IH s1) as (s' & l & E & Hr & Hlen & Hall).
    exists s', (sent ++ l). rewrite (for_each_cons _ _ _ _ _ E1).
    split; [exact E|]. split; [by rewrite Hr, Hr1, app_assoc|].
    split; [rewrite length_app; simpl; lia|]. by apply Forall_app.
Qed.

Lemma save_trace args s :
  length (ids s) = length (err_sentences s) →
  length (err_sentences s) = length (cor_sentences s) →
  ∃ s',
    save args s = (s', inr ()) ∧
    requests s' = requests s ∧
    stdout s' =
      stdout s ++ [lit "Wrote " ++ str_of_nat (length (ids s))
                     ++ lit " rows to " ++ output args].
Proof.
  intros H1 H2. unfold save, DataFrame_of_columns. run_monad.
  rewrite decide_True by done. rewrite select_out. run_monad.
  eexists. split; [reflexivity|]. run_monad. split; [reflexivity|].
  unfold len. cbn [rows]. rewrite length_fmap, length_zip_with, length_zip.
  rewrite (Nat.min_l (length (err_sentences s))) by lia.
  by rewrite Nat.min_l by lia.
Qed.

Lemma main_trace host args s df key :
  valid_run host args df key →
  ∃ s' l,
    main host args s = (s', inr ()) ∧
    requests s' = requests s ++ l ∧
    (length l ≤ 2 * length (rows df))%nat ∧
    Forall (stage_request args) l ∧
    last (stdout s')
      = Some (lit "Wrote " ++ str_of_nat (length (rows df))
                ++ lit " rows to " ++ output args).
Proof.
  intros Hv. pose proof Hv as (Hf & Hwf & Herr & Hk & Ht).
  destruct (prelude_ok host args s df key Hv)
    as (s0 & E0 & Hr0 & Hq0 & Hw0 & Hi0 & He0 & Hc0).
  set (client := mkOpenAI key (lit "https://api.upstage.ai/v1")) in *.
  destruct (for_each_rows client args (iterrows (with_id df))
              (loop_rows_ok df Hwf Herr) s0)
    as (s1 & lc & E1 & Hw1 & Hid1 & Herr1 & Hcor1 & Hlen & _).
  destruct (for_each_requests client args (iterrows (with_id df))
              (loop_rows_ok df Hwf Herr) s0)
    as (s1' & l & E1' & Hreq & Hlenl & Hall).
  assert (s1' = s1) as -> by congruence.
  rewrite Hi0 in Hid1. rewrite He0 in Herr1. rewrite Hc0 in Hcor1.
  simpl in Hid1, Herr1, Hcor1.
  destruct (save_trace args s1) as (s2 & E2 & Hreq2 & Hout2).
  { by rewrite Hid1, Herr1, !length_fmap. }
  { by rewrite Herr1, Hcor1, length_fmap. }
  exists s2, l. split_and!.
  - unfold main, mbind, M_bind. rewrite E0. cbn beta iota.
    rewrite E1. exact E2.
  - by rewrite Hreq2, Hreq, Hq0.
  - by rewrite <- (with_id_length df), <- iterrows_length.
  - done.
  - rewrite Hout2, last_snoc, Hid1, length_fmap, iterrows_length, with_id_length.
    done.
Qed.

(** *** Properties of [main] *)

(** C1: with the [err_sentence] column there (and the run able to
    start), [main] writes as many rows as it read, in the order it read
    them: row [i] of the output carries the identifier and the text the
    loop read in row [i] of the input and the sentence that goes with
    what the service did for that row, whatever that was. *)
Theorem output_rows_follow_input host args s df key :
  valid_run host args df key →
  ∃ out, writes host args s out ∧
    length (rows out) = length (rows df) ∧
    ∀ i (row : Row), rows df !! i = Some row →
      ∃ v idv o,
        row !! "err_sentence" = Some v ∧
        (if bool_decide ("id" ∈ columns df)
         then ∃ id0, row !! "id" = Some id0 ∧ idv = as_read df id0
         else idv = temp_id i) ∧
        observed host args s i = Some o ∧
        rows out !! i
          = Some (out_row idv (py_str (as_read df v))
                    (emitted (py_str (as_read df v)) o)).
Proof.
  intros Hv.
  destruct (main_spec host args s df key Hv) as (out & Hw & _ & Hlen & Hrows).
  exists out. auto.
Qed.

(** C2, as the code has it: when the specialist call of row [i] answers
    and the reviewer call fails, the [cor_sentence] of row [i] is the
    stripped content of the specialist answer if that is not empty, and
    otherwise the text of the row, which is the [err_sentence] of the
    same output row. *)
Theorem reviewer_failure_falls_back host args s df key i (row : Row) v c1 e :
  valid_run host args df key →
  rows df !! i = Some row → row !! "err_sentence" = Some v →
  observed host args s i = Some (inr c1, Some (inl e)) →
  ∃ out (orow : Row), writes host args s out ∧ rows out !! i = Some orow ∧
    orow !! "err_sentence" = Some (PyStr (py_str (as_read df v))) ∧
    orow !! "cor_sentence"
      = Some (PyStr (if truthy (strip c1) then strip c1
                     else py_str (as_read df v))) ∧
    (strip c1 ≠ [] → orow !! "cor_sentence" = Some (PyStr (strip c1))) ∧
    (strip c1 = [] → orow !! "cor_sentence" = orow !! "err_sentence").
Proof.
  intros Hv Hrow Hcell Ho.
  destruct (main_spec host args s df key Hv) as (out & Hw & _ & _ & Hrows).
  destruct (Hrows i row Hrow) as (v' & idv & o & Hv' & _ & Ho' & Hout).
  assert (v' = v) as -> by congruence.
  assert (o = (inr c1, Some (inl e))) as -> by congruence.
  eexists out, _. split; [exact Hw|]. split; [exact Hout|].
  rewrite out_row_lookup_cor, out_row_lookup_err. simpl.
  split; [done|]. split; [done|]. split.
  - intros Hne. by destruct (strip c1).
  - by intros ->.
Qed.

(** C3: when the specialist call of row [i] fails, the [cor_sentence]
    of row [i] is the [err_sentence] of that output row: the text the
    loop read in the input row, which is the cell itself when the cell
    holds a string. *)
Theorem specialist_failure_keeps_original host args s df key i (row : Row) v e o2 :
  valid_run host args df key →
  rows df !! i = Some row → row !! "err_sentence" = Some v →
  observed host args s i = Some (inl e, o2) →
  ∃ out (orow : Row), writes host args s out ∧ rows out !! i = Some orow ∧
    orow !! "cor_sentence" = orow !! "err_sentence" ∧
    orow !! "cor_sentence" = Some (PyStr (py_str (as_read df v))) ∧
    (∀ t, v = PyStr t → orow !! "cor_sentence" = Some (PyStr t)).
Proof.
  intros Hv Hrow Hcell Ho.
  destruct (main_spec host args s df key Hv) as (out & Hw & _ & _ & Hrows).
  destruct (Hrows i row Hrow) as (v' & idv & o & Hv' & _ & Ho' & Hout).
  assert (v' = v) as -> by congruence.
  assert (o = (inl e, o2)) as -> by congruence.
  eexists out, _. split; [exact Hw|]. split; [exact Hout|].
  rewrite out_row_lookup_cor, out_row_lookup_err. simpl.
  split; [done|]. split; [done|]. intros t ->. by rewrite as_read_str.
Qed.

(** C4: when both calls of row [i] answer, the [cor_sentence] of row
    [i] is the stripped message content of the first completion of the
    reviewer answer.  The content [c2] is what the message of the first
    choice of the response to the second request holds, that request
    being made from the stripped content of the first choice of the
    response to the first; and the sentence is [c2] without the
    whitespace at its two ends: whitespace only was taken off, and what
    is left neither starts nor ends with whitespace. *)
Theorem both_calls_emit_reviewer_content host args s df key i (row : Row) v c1 c2 :
  valid_run host args df key →
  rows df !! i = Some row → row !! "err_sentence" = Some v →
  observed host args s i = Some (inr c1, Some (inr c2)) →
  ∃ out (orow : Row), writes host args s out ∧ rows out !! i = Some orow ∧
    orow !! "cor_sentence" = Some (PyStr (strip c2)) ∧
    (∃ l r, c2 = l ++ strip c2 ++ r ∧
       Forall (λ c, isspace c = true) l ∧ Forall (λ c, isspace c = true) r) ∧
    (∀ c, head (strip c2) = Some c → isspace c = false) ∧
    (∀ c, last (strip c2) = Some c → isspace c = false) ∧
    ∃ p1 r1 resp1 ch1 rest1 p2 r2 resp2 ch2 rest2,
      format specialist_prompt (py_str (as_read df v)) = inr p1 ∧
      create (remote (store_before host args s i))
        (mkOpenAI key (lit "https://api.upstage.ai/v1"))
        (chat_request args system_1 p1) = (r1, inr resp1) ∧
      choices resp1 = ch1 :: rest1 ∧
      message_content (message ch1) = Some c1 ∧
      format reviewer_prompt (strip c1) = inr p2 ∧
      create r1 (mkOpenAI key (lit "https://api.upstage.ai/v1"))
        (chat_request args system_2 p2) = (r2, inr resp2) ∧
      choices resp2 = ch2 :: rest2 ∧
      message_content (message ch2) = Some c2.
Proof.
  intros Hv Hrow Hcell Ho.
  destruct (main_spec host args s df key Hv) as (out & Hw & _ & _ & Hrows).
  destruct (Hrows i row Hrow) as (v' & idv & o & Hv' & _ & Ho' & Hout).
  assert (v' = v) as -> by congruence.
  assert (o = (inr c1, Some (inr c2))) as -> by congruence.
  eexists out, _. split; [exact Hw|]. split; [exact Hout|].
  rewrite out_row_lookup_cor. simpl. split; [done|].
  split; [apply strip_split|].
  split; [apply strip_head|]. split; [apply strip_last|].
  destruct (run_step host args s df key i row v Hv Hrow Hcell)
    as (seen & idv' & _ & _ & _ & Hobs).
  rewrite Hobs in Ho. injection Ho as Ho.
  apply observe_both in Ho
    as (p1 & r1 & resp1 & p2 & r2 & resp2 & F1 & E1 & K1 & F2 & E2 & K2).
  apply first_content_inr in K1 as (ch1 & rest1 & Hch1 & Hc1).
  apply first_content_inr in K2 as (ch2 & rest2 & Hch2 & Hc2).
  by exists p1, r1, resp1, ch1, rest1, p2, r2, resp2, ch2, rest2.
Qed.

(** C5: whatever the service does, [main] returns normally and writes
    one output row per input row; a row whose specialist call or
    reviewer call raised is there like the others, with its own text
    and the fallback sentence. *)
Theorem row_failure_never_aborts host args s df key :
  valid_run host args df key →
  ∃ out, writes host args s out ∧
    length (rows out) = length (rows df) ∧
    ∀ i (row : Row), rows df !! i = Some row →
      ∃ (orow : Row) v o,
        rows out !! i = Some orow ∧
        row !! "err_sentence" = Some v ∧
        observed host args s i = Some o ∧
        orow !! "err_sentence" = Some (PyStr (py_str (as_read df v))) ∧
        (∀ e, o.1 = inl e → orow !! "cor_sentence" = orow !! "err_sentence") ∧
        (∀ c1 e, o = (inr c1, Some (inl e)) →
           orow !! "cor_sentence"
             = if truthy (strip c1) then Some (PyStr (strip c1))
               else orow !! "err_sentence").
Proof.
  intros Hv.
  destruct (main_spec host args s df key Hv) as (out & Hw & _ & Hlen & Hrows).
  exists out. repeat split; try done.
  intros i row Hrow.
  destruct (Hrows i row Hrow) as (v & idv & o & Hv' & _ & Ho & Hout).
  eexists _, v, o. split; [exact Hout|].
  rewrite out_row_lookup_cor, out_row_lookup_err. repeat split; try done.
  - intros e He. destruct o as [[e'|c] o2]; simpl in *; [done|congruence].
  - intros c1 e ->. simpl. by destruct (truthy (strip c1)).
Qed.

(** C6: when the table has no [err_sentence] column, or the credential
    is not set (or is empty), [main] ends with an exception, and up to
    then no request has gone to the service and no file has been
    written. *)
Theorem invalid_setup_aborts_early host args s df :
  files host (input args) = inr df →
  "err_sentence" ∉ columns df
  ∨ environ host !! "UPSTAGE_API_KEY" = None
  ∨ environ host !! "UPSTAGE_API_KEY" = Some [] →
  ∃ s' e, main host args s = (s', inl e) ∧
    exc_type e = "ValueError" ∧
    requests s' = requests s ∧ remote s' = remote s ∧
    written s' = written s.
Proof.
  intros Hf H. unfold main, prelude. rewrite Hf. run_monad.
  destruct (bool_decide ("err_sentence" ∉ columns df)) eqn:Herr; run_monad.
  { eexists _, _. repeat split; reflexivity. }
  destruct H as [H|[H|H]].
  - apply bool_decide_eq_false in Herr. done.
  - rewrite H.
    destruct (bool_decide ("id" ∉ columns df)); run_monad;
      eexists _, _; repeat split; reflexivity.
  - rewrite H.
    destruct (bool_decide ("id" ∉ columns df)); run_monad;
      eexists _, _; repeat split; reflexivity.
Qed.


(** C10: when both calls of row [i] answer and the content of the
    reviewer answer strips to the empty string, the [cor_sentence] of
    row [i] is the empty string. *)
Theorem blank_reviewer_content_emitted host args s df key i (row : Row) c1 c2 :
  valid_run host args df key →
  rows df !! i = Some row →
  observed host args s i = Some (inr c1, Some (inr c2)) →
  strip c2 = [] →
  ∃ out (orow : Row), writes host args s out ∧ rows out !! i = Some orow ∧
    orow !! "cor_sentence" = Some (PyStr []).
Proof.
  intros Hv Hrow Ho Hblank.
  destruct (main_spec host args s df key Hv) as (out & Hw & _ & _ & Hrows).
  destruct (Hrows i row Hrow) as (v & idv & o & Hv' & _ & Ho' & Hout).
  assert (o = (inr c1, Some (inr c2))) as -> by congruence.
  eexists out, _. split; [done|]. split; [exact Hout|].
  rewrite out_row_lookup_cor. simpl. by rewrite Hblank.
Qed.

(** *** Further properties of [main] *)

Lemma out_row_dom i e c :
  dom (out_row i e c) = list_to_set ["id"; "err_sentence"; "cor_sentence"].
Proof.
  unfold out_row. rewrite !dom_insert_L, dom_singleton_L. set_solver.
Qed.

(** X1: the table [main] writes has the three columns [id],
    [err_sentence], [cor_sentence] in this order; every row has a cell
    for exactly these three, and the two sentence cells hold strings. *)
Theorem output_table_shape host args s df key :
  valid_run host args df key →
  ∃ out, writes host args s out ∧
    columns out = ["id"; "err_sentence"; "cor_sentence"] ∧
    well_formed out ∧
    ∀ i (orow : Row), rows out !! i = Some orow →
      ∃ e c, orow !! "err_sentence" = Some (PyStr e) ∧
             orow !! "cor_sentence" = Some (PyStr c).
Proof.
  intros Hv.
  destruct (main_spec host args s df key Hv) as (out & Hw & Hcols & Hlen & Hrows).
  assert (∀ i (orow : Row), rows out !! i = Some orow →
            ∃ idv e c, orow = out_row idv e c) as Hshape.
  { intros i orow Ho.
    assert (is_Some (rows df !! i)) as [row Hrow].
    { apply lookup_lt_is_Some. rewrite <- Hlen. by apply lookup_lt_Some in Ho. }
    destruct (Hrows i row Hrow) as (v & idv & o & _ & _ & _ & Hout).
    rewrite Ho in Hout. injection Hout as ->. by eexists _, _, _. }
  exists out. split_and!; try done.
  - apply Forall_lookup. intros i orow Ho.
    destruct (Hshape i orow Ho) as (idv & e & c & ->).
    rewrite Hcols. apply out_row_dom.
  - intros i orow Ho. destruct (Hshape i orow Ho) as (idv & e & c & ->).
    exists e, c. by rewrite out_row_lookup_err, out_row_lookup_cor.
Qed.

(** X2: a run sends at most two requests per row of the table, and each
    one names the model of the command line, has temperature 0 and
    carries two messages, a system message with one of the two fixed
    instructions and a user message. *)
Theorem requests_bounded_and_uniform host args s df key :
  valid_run host args df key →
  ∃ s' l,
    main host args s = (s', inr ()) ∧
    requests s' = requests s ++ l ∧
    (length l ≤ 2 * length (rows df))%nat ∧
    Forall (λ q,
              req_model q = model args ∧ req_temperature q = 0%Qc ∧
              ∃ system prompt,
                (system = system_1 ∨ system = system_2) ∧
                req_messages q = [ mkMessage (lit "system") system;
                                   mkMessage (lit "user") prompt ]) l.
Proof.
  intros Hv.
  destruct (main_trace host args s df key Hv) as (s' & l & E & Hr & Hlen & Hall & _).
  exists s', l. split_and!; try done.
  eapply Forall_impl; [exact Hall|].
  intros q [p [-> | ->]]; (split; [done|]; split; [done|]).
  - exists system_1, p. split; [by left|done].
  - exists system_2, p. split; [by right|done].
Qed.

(** X3: for a row whose two stages both give content, exactly two
    requests go out, in this order: the specialist request with the
    prompt made from the text the loop read in the row, then the
    reviewer request with the prompt made from the stripped specialist
    content; nothing is printed. *)
Theorem success_sends_two_requests host args s df key i (row : Row) v c1 c2 :
  valid_run host args df key →
  rows df !! i = Some row → row !! "err_sentence" = Some v →
  observed host args s i = Some (inr c1, Some (inr c2)) →
  ∃ p1 p2,
    format specialist_prompt (py_str (as_read df v)) = inr p1 ∧
    format reviewer_prompt (strip c1) = inr p2 ∧
    requests (store_before host args s (S i))
      = requests (store_before host args s i)
          ++ [chat_request args system_1 p1; chat_request args system_2 p2] ∧
    stdout (store_before host args s (S i))
      = stdout (store_before host args s i).
Proof.
  intros Hv Hrow Hcell Ho.
  destruct (run_step host args s df key i row v Hv Hrow Hcell)
    as (seen & idv & He & Hid & Hstep & Hobs).
  destruct (process_row_trace (mkOpenAI key (lit "https://api.upstage.ai/v1"))
              args seen (store_before host args s i) (as_read df v) idv He Hid)
    as (s1 & sent & E & Hreq & _ & _ & Hcase).
  rewrite Hobs in Ho. injection Ho as Ho. rewrite Ho in Hcase.
  destruct Hcase as (Hout & p1 & p2 & F1 & F2 & ->).
  exists p1, p2. rewrite Hstep, E. done.
Qed.

(** X4: for a row whose specialist stage fails, no reviewer request is
    sent (at most the one specialist request went out), and one line is
    printed: the first 50 characters of the text the loop read in the
    row and the exception. *)
Theorem specialist_failure_trace host args s df key i (row : Row) v e o2 :
  valid_run host args df key →
  rows df !! i = Some row → row !! "err_sentence" = Some v →
  observed host args s i = Some (inl e, o2) →
  stdout (store_before host args s (S i))
    = stdout (store_before host args s i)
        ++ [lit "Error processing: " ++ take 50 (py_str (as_read df v))
              ++ lit "... - " ++ exc_str e] ∧
  (requests (store_before host args s (S i))
     = requests (store_before host args s i)
   ∨ ∃ p1,
       format specialist_prompt (py_str (as_read df v)) = inr p1 ∧
       requests (store_before host args s (S i))
         = requests (store_before host args s i)
             ++ [chat_request args system_1 p1]).
Proof.
  intros Hv Hrow Hcell Ho.
  destruct (run_step host args s df key i row v Hv Hrow Hcell)
    as (seen & idv & He & Hid & Hstep & Hobs).
  destruct (process_row_trace (mkOpenAI key (lit "https://api.upstage.ai/v1"))
              args seen (store_before host args s i) (as_read df v) idv He Hid)
    as (s1 & sent & E & Hreq & _ & _ & Hcase).
  rewrite Hobs in Ho. injection Ho as Ho. rewrite Ho in Hcase.
  destruct Hcase as (Hout & Hsent). rewrite Hstep, E. split; [exact Hout|].
  destruct Hsent as [[_ ->]|(p1 & F1 & ->)].
  - left. simpl. by rewrite Hreq, app_nil_r.
  - right. by exists p1.
Qed.

(** X5: for a row whose specialist stage gives content and whose
    reviewer stage fails, the specialist request went out, made from the
    text the loop read in the row, followed by the reviewer request
    unless its prompt could not be made, and one line is printed with
    the first 50 characters of that text and the exception of the
    reviewer stage. *)
Theorem reviewer_failure_trace host args s df key i (row : Row) v c1 e :
  valid_run host args df key →
  rows df !! i = Some row → row !! "err_sentence" = Some v →
  observed host args s i = Some (inr c1, Some (inl e)) →
  stdout (store_before host args s (S i))
    = stdout (store_before host args s i)
        ++ [lit "Error processing: " ++ take 50 (py_str (as_read df v))
              ++ lit "... - " ++ exc_str e] ∧
  ∃ p1,
    format specialist_prompt (py_str (as_read df v)) = inr p1 ∧
    ((format reviewer_prompt (strip c1) = inl e ∧
      requests (store_before host args s (S i))
        = requests (store_before host args s i)
            ++ [chat_request args system_1 p1])
     ∨ ∃ p2,
         format reviewer_prompt (strip c1) = inr p2 ∧
         requests (store_before host args s (S i))
           = requests (store_before host args s i)
               ++ [chat_request args system_1 p1;
                   chat_request args system_2 p2]).
Proof.
  intros Hv Hrow Hcell Ho.
  destruct (run_step host args s df key i row v Hv Hrow Hcell)
    as (seen & idv & He & Hid & Hstep & Hobs).
  destruct (process_row_trace (mkOpenAI key (lit "https://api.upstage.ai/v1"))
              args seen (store_before host args s i) (as_read df v) idv He Hid)
    as (s1 & sent & E & Hreq & _ & _ & Hcase).
  rewrite Hobs in Ho. injection Ho as Ho. rewrite Ho in Hcase.
  destruct Hcase as (Hout & p1 & F1 & Hsent). rewrite Hstep, E.
  split; [exact Hout|]. exists p1. split; [done|].
  destruct Hsent as [[F2 ->]|(p2 & F2 & ->)].
  - by left.
  - right. by exists p2.
Qed.

(** X6: the last line a run prints is the report [Wrote <n> rows to
    <output>], where [n] is the number of rows of the input table. *)
Theorem final_report_line host args s df key :
  valid_run host args df key →
  ∃ s', main host args s = (s', inr ()) ∧
    last (stdout s')
      = Some (lit "Wrote " ++ str_of_nat (length (rows df))
                ++ lit " rows to " ++ output args).
Proof.
  intros Hv.
  destruct (main_trace host args s df key Hv) as (s' & l & E & _ & _ & _ & Hlast).
  by exists s'.
Qed.

(** When the table cannot be read, [main] ends with the exception of
    the reader and has done nothing at all: no line printed, no request
    sent, no file written. *)
Theorem unreadable_input_aborts host args s e :
  files host (input args) = inl e →
  main host args s = (s, inl e).
Proof.
  intros Hf. unfold main, prelude. rewrite Hf. by run_monad.
Qed.

(** X7: the two checks come in a fixed order and each has its own
    message.  A table without [err_sentence] column ends [main] with the
    message about the column, whatever the credential is, and nothing
    has been printed.  With the column there, a credential that is not
    set or empty ends [main] with the message about the credential, after
    the warning about a missing [id] column when there is none. *)
Theorem setup_error_messages host args s df :
  files host (input args) = inr df →
  ("err_sentence" ∉ columns df →
   main host args s
   = (s, inl (ValueError "Input CSV must contain 'err_sentence' column"))) ∧
  ("err_sentence" ∈ columns df →
   environ host !! "UPSTAGE_API_KEY" = None
   ∨ environ host !! "UPSTAGE_API_KEY" = Some [] →
   ∃ s',
     main host args s
     = (s', inl (ValueError "UPSTAGE_API_KEY not found in environment variables")) ∧
     stdout s'
     = stdout s
         ++ (if bool_decide ("id" ∉ columns df)
             then [lit "Warning: 'id' column not found. Generating without id."]
             else [])).
Proof.
  intros Hf. unfold main, prelude. rewrite Hf. run_monad. split.
  - intros Hno. by rewrite bool_decide_eq_true_2 by done.
  - intros Hin Hkey.
    rewrite (bool_decide_eq_false_2 ("err_sentence" ∉ columns df)) by tauto.
    run_monad.
    destruct Hkey as [-> | ->];
      destruct (bool_decide ("id" ∉ columns df)); run_monad;
      eexists; (split; [reflexivity|]); run_monad; by rewrite ?app_nil_r.
Qed.

(** X8: on a table without rows, [main] sends no request and writes
    the table with the three columns and no row. *)
Theorem empty_table_written host args s df key :
  valid_run host args df key → rows df = [] →
  ∃ s', main host args s = (s', inr ()) ∧
    requests s' = requests s ∧
    written s'
      = written s
          ++ [(output args,
               {| columns := ["id"; "err_sentence"; "cor_sentence"];
                  rows := [] |})].
Proof.
  intros Hv Hnil.
  destruct (main_trace host args s df key Hv) as (s' & l & E & Hr & Hlen & _).
  destruct (main_spec host args s df key Hv)
    as (out & (s2 & E2 & Hw) & Hcols & Hlen' & _).
  assert (s2 = s') as -> by congruence.
  rewrite Hnil in Hlen, Hlen'. simpl in Hlen, Hlen'.
  destruct l; [|simpl in Hlen; lia].
  destruct out as [cols [|r rs]]; [|simpl in Hlen'; lia].
  simpl in Hcols. subst cols.
  exists s'. by rewrite Hr, app_nil_r.
Qed.

(** X9: on the failure path the corrected sentence is never empty for a
    row whose text is not empty: it is the stripped specialist content
    when there is some, and the text of the row otherwise. *)
Theorem fallback_never_blank host args s df key i (row : Row) v o :
  valid_run host args df key →
  rows df !! i = Some row → row !! "err_sentence" = Some v →
  py_str v ≠ [] →
  observed host args s i = Some o →
  (∃ e, o.1 = inl e) ∨ (∃ c1 e, o = (inr c1, Some (inl e))) →
  ∃ out (orow : Row) t, writes host args s out ∧ rows out !! i = Some orow ∧
    orow !! "cor_sentence" = Some (PyStr t) ∧ t ≠ [].
Proof.
  intros Hv Hrow Hcell Hne Ho Hfail.
  destruct (main_spec host args s df key Hv) as (out & Hw & _ & _ & Hrows).
  destruct (Hrows i row Hrow) as (v' & idv & o' & Hv' & _ & Ho' & Hout).
  assert (v' = v) as -> by congruence.
  assert (o' = o) as -> by congruence.
  pose proof (py_str_as_read_nonempty df v Hne) as Hne'.
  eexists out, _, _. split; [exact Hw|]. split; [exact Hout|].
  rewrite out_row_lookup_cor. split; [reflexivity|].
  destruct Hfail as [[e He]|(c1 & e & ->)].
  - destruct o as [[e'|c] o2]; simpl in *; [done|congruence].
  - simpl. by destruct (strip c1).
Qed.

(** X10: a corrected sentence that comes from an answer of the model
    (the reviewer's content, or the specialist's non-empty stripped
    content when the reviewer stage fails) neither starts nor ends with
    whitespace. *)
Theorem model_answers_are_stripped host args s df key i (row : Row) c1 o2 :
  valid_run host args df key →
  rows df !! i = Some row →
  observed host args s i = Some (inr c1, o2) →
  truthy (strip c1) = true ∨ (∃ c2, o2 = Some (inr c2)) →
  ∃ out (orow : Row) t, writes host args s out ∧ rows out !! i = Some orow ∧
    orow !! "cor_sentence" = Some (PyStr t) ∧
    (∀ c, head t = Some c → isspace c = false) ∧
    (∀ c, last t = Some c → isspace c = false).
Proof.
  intros Hv Hrow Ho Hans.
  destruct (main_spec host args s df key Hv) as (out & Hw & _ & _ & Hrows).
  destruct (Hrows i row Hrow) as (v & idv & o & _ & _ & Ho' & Hout).
  assert (o = (inr c1, o2)) as -> by congruence.
  eexists out, _, _. split; [exact Hw|]. split; [exact Hout|].
  rewrite out_row_lookup_cor. split; [reflexivity|]. split.
  - intros c. destruct o2 as [[e|c2]|]; simpl.
    + destruct Hans as [->|(c2 & [=])]. apply strip_head.
    + apply strip_head.
    + destruct Hans as [->|(c2 & [=])]. apply strip_head.
  - intros c. destruct o2 as [[e|c2]|]; simpl.
    + destruct Hans as [->|(c2 & [=])]. apply strip_last.
    + apply strip_last.
    + destruct Hans as [->|(c2 & [=])]. apply strip_last.
Qed.

(** X11: when the table has no [id] column, the identifiers of the
    output rows are pairwise distinct. *)
Theorem placeholder_ids_distinct host args s df key :
  valid_run host args df key → "id" ∉ columns df →
  ∃ out, writes host args s out ∧
    ∀ i j (oi oj : Row),
      rows out !! i = Some oi → rows out !! j = Some oj →
      oi !! "id" = oj !! "id" → i = j.
Proof.
  intros Hv Hnoid.
  destruct (main_spec host args s df key Hv) as (out & Hw & _ & Hlen & Hrows).
  assert (∀ i (orow : Row), rows out !! i = Some orow →
            orow !! "id" = Some (temp_id i)) as Hid.
  { intros i orow Ho.
    assert (is_Some (rows df !! i)) as [row Hrow].
    { apply lookup_lt_is_Some. rewrite <- Hlen. by apply lookup_lt_Some in Ho. }
    destruct (Hrows i row Hrow) as (v & idv & o & _ & Hidv & _ & Hout).
    rewrite bool_decide_eq_false_2 in Hidv by done. subst idv.
    rewrite Ho in Hout. injection Hout as ->. apply out_row_lookup_id. }
  exists out. split; [done|]. intros i j oi oj Hi Hj Heq.
  rewrite (Hid i oi Hi), (Hid j oj Hj) in Heq.
  apply temp_id_inj. congruence.
Qed.

(** *** The whole console and the whole request log *)

Lemma prelude_stdout host args s df key :
  valid_run host args df key →
  stdout (prelude host args s).1 = stdout s ++ header args df.
Proof.
  intros (Hf & _ & Herr & Hk & Ht).
  unfold prelude, header. rewrite Hf, Hk, Ht. run_monad.
  rewrite (bool_decide_eq_false_2 ("err_sentence" ∉ columns df)) by tauto.
  destruct (bool_decide ("id" ∉ columns df)); run_monad.
  - by rewrite <- !app_assoc.
  - by rewrite <- !app_assoc.
Qed.

Lemma store_before_0 host args s df key :
  valid_run host args df key →
  store_before host args s 0 = (prelude host args s).1.
Proof.
  intros Hv. destruct (prelude_ok host args s df key Hv) as (s0 & E0 & _).
  unfold store_before. by rewrite E0.
Qed.

Lemma main_after_loop host args s df key :
  valid_run host args df key →
  main host args s = save args (store_before host args s (length (rows df))).
Proof.
  intros Hv. pose proof Hv as (Hf & Hwf & Herr & Hk & Ht).
  destruct (prelude_ok host args s df key Hv) as (s0 & E0 & _).
  destruct (for_each_rows (mkOpenAI key (lit "https://api.upstage.ai/v1")) args
              (iterrows (with_id df)) (loop_rows_ok df Hwf Herr) s0)
    as (s1 & l & E1 & _).
  unfold main, store_before, mbind, M_bind. rewrite E0. cbn beta iota.
  rewrite <- (with_id_length df), <- iterrows_length, firstn_all, E1. done.
Qed.

Lemma observe_shape client args text r c : observe client args text r ≠ (inr c, None).
Proof.
  unfold observe.
  destruct (ask specialist_prompt system_1 client args text r) as [r1 [e|c1]];
    done.
Qed.

Lemma run_row_trace host args s df key i (row : Row) :
  valid_run host args df key → rows df !! i = Some row →
  ∃ sent,
    requests (store_before host args s (S i))
      = requests (store_before host args s i) ++ sent ∧
    if row_failed (observed host args s i)
    then
      (length sent ≤ 1 ∨ length sent = 2)%nat ∧
      ∃ rest,
        stdout (store_before host args s (S i))
          = stdout (store_before host args s i)
              ++ [lit "Error processing: " ++ rest]
    else
      length sent = 2%nat ∧
      stdout (store_before host args s (S i))
        = stdout (store_before host args s i).
Proof.
  intros Hv Hrow. pose proof Hv as (Hf & Hwf & Herr & Hk & Ht).
  destruct (proj1 (well_formed_cell df i row "err_sentence" Hwf Hrow) Herr)
    as [v Hcell].
  destruct (run_step host args s df key i row v Hv Hrow Hcell)
    as (seen & idv & He & Hid & Hstep & Hobs).
  destruct (process_row_trace (mkOpenAI key (lit "https://api.upstage.ai/v1"))
              args seen (store_before host args s i) (as_read df v) idv He Hid)
    as (s1 & sent & E & Hreq & Hlen & _ & Hcase).
  exists sent. rewrite Hstep, E. split; [exact Hreq|]. rewrite Hobs.
  pose proof (observe_shape (mkOpenAI key (lit "https://api.upstage.ai/v1"))
                args (py_str (as_read df v))
                (remote (store_before host args s i))) as Hsh.
  destruct (observe (mkOpenAI key (lit "https://api.upstage.ai/v1")) args
              (py_str (as_read df v)) (remote (store_before host args s i)))
    as [[e|c1] [[e2|c2]|]]; simpl.
  - destruct Hcase as [Hout Hs]. split.
    + destruct Hs as [[_ ->]|(p1 & _ & ->)]; simpl; lia.
    + eexists. exact Hout.
  - destruct Hcase as [Hout Hs]. split.
    + destruct Hs as [[_ ->]|(p1 & _ & ->)]; simpl; lia.
    + eexists. exact Hout.
  - destruct Hcase as [Hout Hs]. split.
    + destruct Hs as [[_ ->]|(p1 & _ & ->)]; simpl; lia.
    + eexists. exact Hout.
  - destruct Hcase as (Hout & p1 & _ & Hs). split.
    + destruct Hs as [[_ ->]|(p2 & _ & ->)]; simpl; lia.
    + eexists. exact Hout.
  - destruct Hcase as (Hout & p1 & p2 & _ & _ & ->). done.
  - by destruct (Hsh c1).
Qed.

Lemma loop_trace host args s df key :
  valid_run host args df key →
  ∀ i, (i ≤ length (rows df))%nat →
    ∃ errs l,
      stdout (store_before host args s i)
        = stdout (store_before host args s 0) ++ errs ∧
      requests (store_before host args s i)
        = requests (store_before host args s 0) ++ l ∧
      length errs
        = length (filter (λ j, row_failed (observed host args s j)) (seq 0 i)) ∧
      Forall (λ line, ∃ rest, line = lit "Error processing: " ++ rest) errs ∧
      (errs = [] → length l = (2 * i)%nat).
Proof.
  intros Hv. induction i as [|i IH]; intros Hi.
  - exists [], []. rewrite !app_nil_r. split_and!; done.
  - destruct IH as (errs & l & Hout & Hreq & Hcount & Hall & Hfull); [lia|].
    assert (is_Some (rows df !! i)) as [row Hrow]
      by (apply lookup_lt_is_Some; lia).
    destruct (run_row_trace host args s df key i row Hv Hrow)
      as (sent & Hreq' & Hcase).
    rewrite seq_S, filter_app, length_app. simpl.
    destruct (row_failed (observed host args s i)) eqn:Hfail.
    + destruct Hcase as (_ & rest & Hout').
      exists (errs ++ [lit "Error processing: " ++ rest]), (l ++ sent).
      split_and!.
      * by rewrite Hout', Hout, app_assoc.
      * by rewrite Hreq', Hreq, app_assoc.
      * rewrite length_app, Hcount. simpl.
        rewrite filter_cons_True by (by rewrite Hfail). done.
      * apply Forall_app. split; [done|]. repeat constructor. by exists rest.
      * intros Hnil. by destruct errs.
    + destruct Hcase as (Hlen & Hout').
      exists errs, (l ++ sent). split_and!.
      * by rewrite Hout', Hout.
      * by rewrite Hreq', Hreq, app_assoc.
      * rewrite Hcount.
        rewrite filter_cons_False by (rewrite Hfail; intros []).
        simpl. lia.
      * done.
      * intros Hnil. rewrite length_app, Hlen, (Hfull Hnil). lia.
Qed.

(** X12: the console of a run holds the lines before the loop, then
    one line starting with [Error processing: ] for each failed row and
    none for the others, then the report. *)
Theorem console_transcript host args s df key :
  valid_run host args df key →
  ∃ s' errs,
    main host args s = (s', inr ()) ∧
    stdout s'
      = stdout s ++ header args df ++ errs
          ++ [lit "Wrote " ++ str_of_nat (length (rows df))
                ++ lit " rows to " ++ output args] ∧
    length errs
      = length (filter (λ j, row_failed (observed host args s j))
                  (seq 0 (length (rows df)))) ∧
    Forall (λ line, ∃ rest, line = lit "Error processing: " ++ rest) errs.
Proof.
  intros Hv.
  destruct (main_trace host args s df key Hv) as (s' & _ & E & _).
  destruct (loop_trace host args s df key Hv (length (rows df)))
    as (errs & l & Hout & _ & Hcount & Hall & _); [lia|].
  exists s', errs. split_and!; try done.
  pose proof Hv as (Hf & Hwf & Herr & Hk & Ht).
  rewrite (main_after_loop host args s df key Hv) in E.
  destruct (prelude_ok host args s df key Hv) as (s0 & E0 & _ & _ & _ & Hi0 & He0 & Hc0).
  destruct (for_each_rows (mkOpenAI key (lit "https://api.upstage.ai/v1")) args
              (iterrows (with_id df)) (loop_rows_ok df Hwf Herr) s0)
    as (s1 & lc & E1 & _ & Hid1 & Herr1 & Hcor1 & Hlen & _).
  assert (store_before host args s (length (rows df)) = s1) as Hs1.
  { unfold store_before. rewrite E0. cbn beta iota.
    by rewrite <- (with_id_length df), <- iterrows_length, firstn_all, E1. }
  rewrite Hs1 in E, Hout.
  rewrite Hi0 in Hid1. rewrite He0 in Herr1. rewrite Hc0 in Hcor1.
  simpl in Hid1, Herr1, Hcor1.
  destruct (save_trace args s1) as (s2 & E2 & _ & Hout2).
  { by rewrite Hid1, Herr1, !length_fmap. }
  { by rewrite Herr1, Hcor1, length_fmap. }
  assert (s2 = s') as -> by congruence.
  rewrite Hout2, Hout, (store_before_0 host args s df key Hv).
  rewrite (prelude_stdout host args s df key Hv).
  rewrite Hid1, length_fmap, iterrows_length, with_id_length.
  by rewrite <- !app_assoc.
Qed.

(** X13: when both stages of every row give content, the run sends
    exactly two requests per row. *)
Theorem all_success_request_count host args s df key :
  valid_run host args df key →
  (∀ i, (i < length (rows df))%nat →
        ∃ c1 c2, observed host args s i = Some (inr c1, Some (inr c2))) →
  ∃ s' l,
    main host args s = (s', inr ()) ∧
    requests s' = requests s ++ l ∧
    length l = (2 * length (rows df))%nat.
Proof.
  intros Hv Hok.
  destruct (main_trace host args s df key Hv) as (s' & l & E & Hreq & _).
  destruct (loop_trace host args s df key Hv (length (rows df)))
    as (errs & l' & _ & Hreq' & Hcount & _ & Hfull); [lia|].
  exists s', l. split_and!; try done.
  assert (filter (λ j, row_failed (observed host args s j))
            (seq 0 (length (rows df))) = []) as Hnone.
  { destruct (filter _ _) as [|j js] eqn:Ef; [done|].
    assert (j ∈ filter (λ j, row_failed (observed host args s j))
                  (seq 0 (length (rows df)))) as Hj
      by (rewrite Ef; constructor).
    apply list_elem_of_filter in Hj as [Hfail Hin].
    apply elem_of_seq in Hin.
    destruct (Hok j) as (c1 & c2 & Hj); [lia|]. by rewrite Hj in Hfail. }
  rewrite Hnone in Hcount. apply length_zero_iff_nil in Hcount.
  rewrite <- (Hfull Hcount). f_equal.
  rewrite (main_after_loop host args s df key Hv) in E.
  pose proof Hv as (Hf & Hwf & Herr & Hk & Ht).
  destruct (prelude_ok host args s df key Hv)
    as (s0 & E0 & _ & Hq0 & _ & Hi0 & He0 & Hc0).
  destruct (for_each_rows (mkOpenAI key (lit "https://api.upstage.ai/v1")) args
              (iterrows (with_id df)) (loop_rows_ok df Hwf Herr) s0)
    as (s1 & lc & E1 & _ & Hid1 & Herr1 & Hcor1 & Hlen & _).
  assert (store_before host args s (length (rows df)) = s1) as Hs1.
  { unfold store_before. rewrite E0. cbn beta iota.
    by rewrite <- (with_id_length df), <- iterrows_length, firstn_all, E1. }
  rewrite Hs1 in E, Hreq'.
  rewrite Hi0 in Hid1. rewrite He0 in Herr1. rewrite Hc0 in Hcor1.
  simpl in Hid1, Herr1, Hcor1.
  destruct (save_trace args s1) as (s2 & E2 & Hreq2 & _).
  { by rewrite Hid1, Herr1, !length_fmap. }
  { by rewrite Herr1, Hcor1, length_fmap. }
  assert (s2 = s') as -> by congruence.
  rewrite Hreq2, Hreq', (store_before_0 host args s df key Hv), E0 in Hreq.
  simpl in Hreq. rewrite Hq0 in Hreq. by apply app_inv_head in Hreq.
Qed.


End Pipeline.

(** X15: the output row of an input row is a function of the
    identifier and the text the loop reads in that row and of what the
    service did for that row's own two calls.  Take two runs, with their
    own services, templates, stores and tables: if the loop reads the
    same [id] and the same [err_sentence] in row [i] of both and the
    service did the same for it in both, row [i] of the output is the
    same in both, whatever happened to the other rows; and two runs on
    one table in which the service did the same for every row write the
    same table. *)
Theorem row_outcome_isolated {R1 R2 : Type}
    (create1 : R1 → OpenAI → Request → R1 * (Exception + ChatCompletion))
    (create2 : R2 → OpenAI → Request → R2 * (Exception + ChatCompletion))
    (format1 format2 : str → str → Exception + str)
    (specialist1 reviewer1 specialist2 reviewer2 : str)
    (float_repr : float → N * str)
    host1 host2 args1 args2 (s1 : @Store R1) (s2 : @Store R2)
    df1 df2 key1 key2 :
  valid_run host1 args1 df1 key1 → valid_run host2 args2 df2 key2 →
  ("id" ∈ columns df1 ↔ "id" ∈ columns df2) →
  ∃ out1 out2,
    writes create1 format1 specialist1 reviewer1 float_repr host1 args1 s1 out1 ∧
    writes create2 format2 specialist2 reviewer2 float_repr host2 args2 s2 out2 ∧
    (∀ i (row1 row2 : Row),
       rows df1 !! i = Some row1 → rows df2 !! i = Some row2 →
       as_read df1 <$> row1 !! "id" = as_read df2 <$> row2 !! "id" →
       as_read df1 <$> row1 !! "err_sentence"
         = as_read df2 <$> row2 !! "err_sentence" →
       observed create1 format1 specialist1 reviewer1 float_repr host1 args1 s1 i
         = observed create2 format2 specialist2 reviewer2 float_repr
             host2 args2 s2 i →
       is_Some (rows out1 !! i) ∧ rows out1 !! i = rows out2 !! i) ∧
    (df1 = df2 →
     (∀ i, observed create1 format1 specialist1 reviewer1 float_repr
             host1 args1 s1 i
           = observed create2 format2 specialist2 reviewer2 float_repr
               host2 args2 s2 i) →
     out1 = out2).
Proof.
  intros Hv1 Hv2 Hcol.
  destruct (main_spec create1 format1 specialist1 reviewer1 float_repr
              host1 args1 s1 df1 key1 Hv1) as (out1 & Hw1 & Hc1 & Hl1 & Hrows1).
  destruct (main_spec create2 format2 specialist2 reviewer2 float_repr
              host2 args2 s2 df2 key2 Hv2) as (out2 & Hw2 & Hc2 & Hl2 & Hrows2).
  assert (∀ i (row1 row2 : Row),
            rows df1 !! i = Some row1 → rows df2 !! i = Some row2 →
            as_read df1 <$> row1 !! "id" = as_read df2 <$> row2 !! "id" →
            as_read df1 <$> row1 !! "err_sentence"
              = as_read df2 <$> row2 !! "err_sentence" →
            observed create1 format1 specialist1 reviewer1 float_repr
              host1 args1 s1 i
              = observed create2 format2 specialist2 reviewer2 float_repr
                  host2 args2 s2 i →
            is_Some (rows out1 !! i) ∧ rows out1 !! i = rows out2 !! i) as Hrow.
  { intros i row1 row2 Hrow1 Hrow2 Hid Herr Hobs.
    destruct (Hrows1 i row1 Hrow1) as (v1 & id1 & o1 & Hx1 & Hi1 & Ho1 & Hout1).
    destruct (Hrows2 i row2 Hrow2) as (v2 & id2 & o2 & Hx2 & Hi2 & Ho2 & Hout2).
    rewrite Hx1, Hx2 in Herr. simpl in Herr. injection Herr as Herr.
    assert (o1 = o2) as -> by congruence.
    assert (id1 = id2) as ->.
    { destruct (decide ("id" ∈ columns df1)) as [Hin|Hnin].
      - rewrite bool_decide_eq_true_2 in Hi1 by done.
        rewrite bool_decide_eq_true_2 in Hi2 by tauto.
        destruct Hi1 as (a1 & Ha1 & ->). destruct Hi2 as (a2 & Ha2 & ->).
        rewrite Ha1, Ha2 in Hid. simpl in Hid. congruence.
      - rewrite bool_decide_eq_false_2 in Hi1 by done.
        rewrite bool_decide_eq_false_2 in Hi2 by tauto. congruence. }
    rewrite Hout1, Hout2, Herr. eauto. }
  exists out1, out2. split_and!; try done.
  intros <- Hobs.
  destruct out1 as [cols1 rows1], out2 as [cols2 rows2]. simpl in *.
  subst cols1 cols2. f_equal. apply list_eq. intros i.
  destruct (rows df1 !! i) as [row|] eqn:Hi.
  - by apply (Hrow i row row).
  - apply lookup_ge_None in Hi.
    rewrite (lookup_ge_None_2 rows1), (lookup_ge_None_2 rows2); try done; lia.
Qed.

(** ** The sample runs *)

#[local] Abbreviation run_observed script :=
  (observed (scripted script) format_at_end
     sample_prompt_1 sample_prompt_2 sample_repr).
#[local] Abbreviation run_writes script :=
  (writes (scripted script) format_at_end
     sample_prompt_1 sample_prompt_2 sample_repr).
#[local] Abbreviation run_main script :=
  (main (scripted script) format_at_end
     sample_prompt_1 sample_prompt_2 sample_repr).
#[local] Abbreviation run_store_before script :=
  (store_before (scripted script) format_at_end
     sample_prompt_1 sample_prompt_2 sample_repr).
#[local] Abbreviation sample_observed := (run_observed sample_script).
#[local] Abbreviation sample_writes := (run_writes sample_script).
#[local] Abbreviation sample_main := (run_main sample_script).
#[local] Abbreviation sample_store_before := (run_store_before sample_script).

#[local] Abbreviation timed_out :=
  (mkExc "APIConnectionError" (lit "Request timed out.")).
#[local] Abbreviation no_connection :=
  (mkExc "APIConnectionError" (lit "Connection error.")).

Ltac evaluate :=
  first [ vm_compute; reflexivity
        | apply (bool_decide_unpack _); vm_compute; exact I ].

Ltac check_valid_run := unfold valid_run; split_and!; evaluate.

Example strip_example :
  strip (lit "  ab c " ++ [0x0A; 0x3000]) = lit "ab c".
Proof. reflexivity. Qed.

Example lit_hangul : lit "안" = [0xC548].
Proof. reflexivity. Qed.

Example str_of_float_examples :
  str_of_float sample_repr 5 = lit "5.0" ∧
  str_of_float sample_repr (-12) = lit "-12.0" ∧
  str_of_float sample_repr (- 0) = lit "-0.0" ∧
  str_of_float sample_repr nan = lit "nan" ∧
  str_of_float sample_repr neg_infinity = lit "-inf" ∧
  str_of_float sample_repr (float_of_Z 9007199254740993)
    = lit "9007199254740992.0".
Proof. split_and!; vm_compute; reflexivity. Qed.

(** The table the sample run writes. *)
Example sample_output :
  written_cells (sample_main (sample_host sample_table) sample_args fresh).1
  = [ (lit "submission.csv", ["id"; "err_sentence"; "cor_sentence"],
       [ (Some (PyInt 1), Some (PyStr (lit "안뇽하세요")),
          Some (PyStr (lit "안녕하세요.")));
         (Some (PyInt 2), Some (PyStr (lit "nan")), Some (PyStr (lit "nan")));
         (Some (PyInt 3), Some (PyStr (lit "오늘 날씨 좋다")),
          Some (PyStr (lit "오늘 날씨 좋다.")));
         (Some (PyInt 4), Some (PyStr (lit "abc")), Some (PyStr (lit "abc")));
         (Some (PyInt 5), Some (PyStr (lit "def")), Some (PyStr [])) ]) ].
Proof. vm_compute. reflexivity. Qed.

(** In the table whose columns are all numeric, with one of floats, the
    loop reads floats: the identifiers come out as [1.0] and [2.0] and
    the texts as [5.0] and [6.0]. *)
Example numeric_output :
  common_dtype numeric_table = Float64 ∧
  written_cells
    (run_main numeric_script (sample_host numeric_table) sample_args fresh).1
  = [ (lit "submission.csv", ["id"; "err_sentence"; "cor_sentence"],
       [ (Some (PyFloat 1), Some (PyStr (lit "5.0")), Some (PyStr (lit "5.0")));
         (Some (PyFloat 2), Some (PyStr (lit "6.0")), Some (PyStr (lit "6.0")))
       ]) ].
Proof. split; vm_compute; reflexivity. Qed.

Example blank_output :
  common_dtype blank_table = Float64 ∧
  written_cells
    (run_main blank_script (sample_host blank_table) sample_args fresh).1
  = [ (lit "submission.csv", ["id"; "err_sentence"; "cor_sentence"],
       [ (Some (PyFloat 1), Some (PyStr (lit "nan")), Some (PyStr (lit "nan")));
         (Some (PyFloat 2), Some (PyStr (lit "nan")), Some (PyStr (lit "nan")))
       ]) ].
Proof. split; vm_compute; reflexivity. Qed.

Example count_output :
  common_dtype count_table = Object ∧
  written_cells
    (sample_main (sample_host count_table) sample_args fresh).1
  = [ (lit "submission.csv", ["id"; "err_sentence"; "cor_sentence"],
       [ (Some (PyStr (lit "a1")), Some (PyStr (lit "12")),
          Some (PyStr (lit "안녕하세요.")));
         (Some (PyStr (lit "a2")), Some (PyStr (lit "-7")),
          Some (PyStr (lit "-7"))) ]) ].
Proof. split; vm_compute; reflexivity. Qed.

(** Nine requests went out: two for rows 0, 2, 3 and 4 and one for row 1. *)
Example sample_requests :
  length (requests (sample_main (sample_host sample_table) sample_args fresh).1)
  = 9%nat.
Proof. vm_compute. reflexivity. Qed.

Example sample_temp_id : temp_id 12 = PyStr (lit "temp_id_12").
Proof. vm_compute. reflexivity. Qed.

(** Without the credential nothing is sent and nothing is written. *)
Example sample_no_key :
  let r := sample_main (sample_host_no_key sample_table) sample_args fresh in
  r.2 = inl (ValueError "UPSTAGE_API_KEY not found in environment variables")
  ∧ requests r.1 = [] ∧ written r.1 = [].
Proof. vm_compute. done. Qed.

Lemma output_rows_follow_input_witness :
  valid_run (sample_host numeric_table) sample_args numeric_table sample_key ∧
  ∃ out, run_writes numeric_script (sample_host numeric_table) sample_args fresh out ∧
    length (rows out) = 2%nat ∧
    rows out !! 0%nat = Some (out_row (PyFloat 1) (lit "5.0") (lit "5.0")) ∧
    rows out !! 1%nat = Some (out_row (PyFloat 2) (lit "6.0") (lit "6.0")).
Proof.
  assert (valid_run (sample_host numeric_table) sample_args numeric_table
            sample_key) as Hv by check_valid_run.
  split; [exact Hv|].
  destruct (output_rows_follow_input (scripted numeric_script) format_at_end
              sample_prompt_1 sample_prompt_2 sample_repr
              (sample_host numeric_table) sample_args fresh numeric_table
              sample_key Hv) as (out & Hw & Hlen & Hrows).
  exists out. split; [exact Hw|]. split; [exact Hlen|]. split.
  - destruct (Hrows 0%nat numeric_row_0 eq_refl)
      as (v & idv & o & Hc & Hid & Ho & Hout).
    rewrite bool_decide_eq_true_2 in Hid by evaluate.
    destruct Hid as (id0 & Hid0 & ->).
    vm_compute in Hc. injection Hc as <-.
    vm_compute in Hid0. injection Hid0 as <-.
    vm_compute in Ho. injection Ho as <-.
    rewrite Hout. do 2 f_equal; evaluate.
  - destruct (Hrows 1%nat numeric_row_1 eq_refl)
      as (v & idv & o & Hc & Hid & Ho & Hout).
    rewrite bool_decide_eq_true_2 in Hid by evaluate.
    destruct Hid as (id0 & Hid0 & ->).
    vm_compute in Hc. injection Hc as <-.
    vm_compute in Hid0. injection Hid0 as <-.
    vm_compute in Ho. injection Ho as <-.
    rewrite Hout. do 2 f_equal; evaluate.
Defined.

(** C2 as stated fails on row 3 of the sample run: the specialist call
    answers with blanks, the reviewer call fails, and the row gets its
    own text, not the empty stripped content. *)
Lemma reviewer_failure_blank_specialist :
  ¬ (valid_run (sample_host sample_table) sample_args sample_table sample_key →
     rows sample_table !! 3%nat = Some sample_row_3 →
     sample_observed (sample_host sample_table) sample_args fresh 3
       = Some (inr (lit "  "),
               Some (inl (mkExc "APIConnectionError" (lit "Request timed out.")))) →
     ∃ out (orow : Row),
       sample_writes (sample_host sample_table) sample_args fresh out ∧
       rows out !! 3%nat = Some orow ∧
       orow !! "cor_sentence" = Some (PyStr (strip (lit "  ")))).
Proof.
  intros H.
  assert (valid_run (sample_host sample_table) sample_args sample_table sample_key)
    as Hv by check_valid_run.
  destruct (H Hv eq_refl ltac:(evaluate)) as (out & orow & Hw & Hrow & Hcor).
  destruct (main_spec (scripted sample_script) format_at_end sample_prompt_1
              sample_prompt_2 sample_repr _ _ fresh _ _ Hv)
    as (out' & Hw' & _ & _ & Hrows).
  pose proof (writes_functional _ _ _ _ _ _ _ _ _ _ Hw Hw') as ->.
  destruct (Hrows 3%nat sample_row_3 eq_refl) as (v & idv & o & Hc & _ & Ho & Hout).
  vm_compute in Hc. injection Hc as <-.
  vm_compute in Ho. injection Ho as <-.
  rewrite Hrow in Hout. injection Hout as ->.
  rewrite out_row_lookup_cor in Hcor. vm_compute in Hcor. discriminate.
Qed.

Lemma reviewer_failure_falls_back_witness :
  valid_run (sample_host numeric_table) sample_args numeric_table sample_key ∧
  rows numeric_table !! 0%nat = Some numeric_row_0 ∧
  numeric_row_0 !! "err_sentence" = Some (PyInt 5) ∧
  run_observed numeric_script (sample_host numeric_table) sample_args fresh 0
    = Some (inr (lit "  "), Some (inl timed_out)) ∧
  ∃ out (orow : Row),
    run_writes numeric_script (sample_host numeric_table) sample_args fresh out ∧
    rows out !! 0%nat = Some orow ∧
    orow !! "err_sentence" = Some (PyStr (lit "5.0")) ∧
    orow !! "cor_sentence" = Some (PyStr (lit "5.0")) ∧
    (strip (lit "  ") ≠ [] → orow !! "cor_sentence" = Some (PyStr [])) ∧
    (strip (lit "  ") = [] → orow !! "cor_sentence" = orow !! "err_sentence").
Proof.
  assert (valid_run (sample_host numeric_table) sample_args numeric_table
            sample_key) as Hv by check_valid_run.
  assert (numeric_row_0 !! "err_sentence" = Some (PyInt 5)) as Hc by evaluate.
  assert (run_observed numeric_script (sample_host numeric_table) sample_args
            fresh 0 = Some (inr (lit "  "), Some (inl timed_out)))
    as Ho by evaluate.
  split_and!; [exact Hv|reflexivity|exact Hc|exact Ho|].
  exact (reviewer_failure_falls_back (scripted numeric_script) format_at_end
           sample_prompt_1 sample_prompt_2 sample_repr
           (sample_host numeric_table) sample_args fresh numeric_table sample_key
           0%nat numeric_row_0 (PyInt 5) (lit "  ") timed_out
           Hv eq_refl Hc Ho).
Defined.

Lemma specialist_failure_keeps_original_witness :
  valid_run (sample_host numeric_table) sample_args numeric_table sample_key ∧
  rows numeric_table !! 1%nat = Some numeric_row_1 ∧
  numeric_row_1 !! "err_sentence" = Some (PyInt 6) ∧
  run_observed numeric_script (sample_host numeric_table) sample_args fresh 1
    = Some (inl no_connection, None) ∧
  ∃ out (orow : Row),
    run_writes numeric_script (sample_host numeric_table) sample_args fresh out ∧
    rows out !! 1%nat = Some orow ∧
    orow !! "cor_sentence" = orow !! "err_sentence" ∧
    orow !! "cor_sentence" = Some (PyStr (lit "6.0")) ∧
    (∀ t, PyInt 6 = PyStr t → orow !! "cor_sentence" = Some (PyStr t)).
Proof.
  assert (valid_run (sample_host numeric_table) sample_args numeric_table
            sample_key) as Hv by check_valid_run.
  assert (numeric_row_1 !! "err_sentence" = Some (PyInt 6)) as Hc by evaluate.
  assert (run_observed numeric_script (sample_host numeric_table) sample_args
            fresh 1 = Some (inl no_connection, None))
    as Ho by evaluate.
  split_and!; [exact Hv|reflexivity|exact Hc|exact Ho|].
  exact (specialist_failure_keeps_original (scripted numeric_script)
           format_at_end sample_prompt_1 sample_prompt_2 sample_repr
           (sample_host numeric_table) sample_args fresh numeric_table sample_key
           1%nat numeric_row_1 (PyInt 6) no_connection None
           Hv eq_refl Hc Ho).
Defined.

(** The same on a row of text: row 1 of the sample run keeps the text
    [nan] of its missing value, and a row of text that fails keeps its
    text. *)
Example specialist_failure_keeps_text :
  written_cells
    (run_main [] (sample_host short_table) sample_args fresh).1
  = [ (lit "submission.csv", ["id"; "err_sentence"; "cor_sentence"],
       [ (Some (PyInt 1), Some (PyStr (lit "안뇽하세요")),
          Some (PyStr (lit "안뇽하세요")));
         (Some (PyInt 5), Some (PyStr (lit "def")), Some (PyStr (lit "def"))) ]) ].
Proof. vm_compute. reflexivity. Qed.

Lemma both_calls_emit_reviewer_content_witness :
  valid_run (sample_host short_table) sample_args short_table sample_key ∧
  rows short_table !! 0%nat = Some sample_row_0 ∧
  sample_row_0 !! "err_sentence" = Some (PyStr (lit "안뇽하세요")) ∧
  run_observed choice_script (sample_host short_table) sample_args fresh 0
    = Some (inr (lit "안녕하세요 "),
            Some (inr ([0x0A] ++ lit " 안녕하세요. " ++ [0x09]))) ∧
  ∃ out (orow : Row),
    run_writes choice_script (sample_host short_table) sample_args fresh out ∧
    rows out !! 0%nat = Some orow ∧
    orow !! "cor_sentence" = Some (PyStr (lit "안녕하세요.")) ∧
    (∃ l r, [0x0A] ++ lit " 안녕하세요. " ++ [0x09]
            = l ++ lit "안녕하세요." ++ r ∧
       Forall (λ c, isspace c = true) l ∧ Forall (λ c, isspace c = true) r) ∧
    (∀ c, head (lit "안녕하세요.") = Some c → isspace c = false) ∧
    (∀ c, last (lit "안녕하세요.") = Some c → isspace c = false) ∧
    ∃ p1 r1 resp1 ch1 rest1 p2 r2 resp2 ch2 rest2,
      format_at_end sample_prompt_1 (lit "안뇽하세요") = inr p1 ∧
      scripted choice_script
        (remote (run_store_before choice_script (sample_host short_table)
                   sample_args fresh 0))
        (mkOpenAI sample_key (lit "https://api.upstage.ai/v1"))
        (chat_request sample_args system_1 p1) = (r1, inr resp1) ∧
      choices resp1 = ch1 :: rest1 ∧
      message_content (message ch1) = Some (lit "안녕하세요 ") ∧
      format_at_end sample_prompt_2 (lit "안녕하세요") = inr p2 ∧
      scripted choice_script r1
        (mkOpenAI sample_key (lit "https://api.upstage.ai/v1"))
        (chat_request sample_args system_2 p2) = (r2, inr resp2) ∧
      choices resp2 = ch2 :: rest2 ∧
      message_content (message ch2)
        = Some ([0x0A] ++ lit " 안녕하세요. " ++ [0x09]).
Proof.
  assert (valid_run (sample_host short_table) sample_args short_table sample_key)
    as Hv by check_valid_run.
  assert (sample_row_0 !! "err_sentence" = Some (PyStr (lit "안뇽하세요")))
    as Hc by evaluate.
  assert (run_observed choice_script (sample_host short_table) sample_args fresh 0
          = Some (inr (lit "안녕하세요 "),
                  Some (inr ([0x0A] ++ lit " 안녕하세요. " ++ [0x09]))))
    as Ho by evaluate.
  split_and!; [exact Hv|reflexivity|exact Hc|exact Ho|].
  exact (both_calls_emit_reviewer_content (scripted choice_script) format_at_end
           sample_prompt_1 sample_prompt_2 sample_repr
           (sample_host short_table) sample_args fresh short_table sample_key
           0%nat sample_row_0 (PyStr (lit "안뇽하세요")) (lit "안녕하세요 ")
           ([0x0A] ++ lit " 안녕하세요. " ++ [0x09])
           Hv eq_refl Hc Ho).
Defined.

(** The second completions of the two answers of row 0 go nowhere: the
    table holds the stripped first completion of the reviewer answer,
    and the reviewer request carries the stripped first completion of
    the specialist answer. *)
Example first_completion_taken :
  written_cells
    (run_main choice_script (sample_host short_table) sample_args fresh).1
  = [ (lit "submission.csv", ["id"; "err_sentence"; "cor_sentence"],
       [ (Some (PyInt 1), Some (PyStr (lit "안뇽하세요")),
          Some (PyStr (lit "안녕하세요.")));
         (Some (PyInt 5), Some (PyStr (lit "def")), Some (PyStr (lit "def."))) ]) ]
  ∧ requests (run_store_before choice_script (sample_host short_table)
                sample_args fresh 1)
    = [ chat_request sample_args system_1 (sample_prompt_1 ++ lit "안뇽하세요");
        chat_request sample_args system_2 (sample_prompt_2 ++ lit "안녕하세요") ].
Proof. split; vm_compute; reflexivity. Qed.

Lemma row_failure_never_aborts_witness :
  valid_run (sample_host numeric_table) sample_args numeric_table sample_key ∧
  ∃ out, run_writes numeric_script (sample_host numeric_table) sample_args fresh out ∧
    length (rows out) = 2%nat ∧
    (∃ orow : Row, rows out !! 0%nat = Some orow ∧
       orow !! "err_sentence" = Some (PyStr (lit "5.0")) ∧
       orow !! "cor_sentence" = Some (PyStr (lit "5.0"))) ∧
    (∃ orow : Row, rows out !! 1%nat = Some orow ∧
       orow !! "err_sentence" = Some (PyStr (lit "6.0")) ∧
       orow !! "cor_sentence" = Some (PyStr (lit "6.0"))).
Proof.
  assert (valid_run (sample_host numeric_table) sample_args numeric_table
            sample_key) as Hv by check_valid_run.
  split; [exact Hv|].
  destruct (row_failure_never_aborts (scripted numeric_script) format_at_end
              sample_prompt_1 sample_prompt_2 sample_repr
              (sample_host numeric_table) sample_args fresh numeric_table
              sample_key Hv) as (out & Hw & Hlen & Hrows).
  exists out. split; [exact Hw|]. split; [exact Hlen|]. split.
  - destruct (Hrows 0%nat numeric_row_0 eq_refl)
      as (orow & v & o & Hout & Hc & Ho & Herr & _ & Hsecond).
    vm_compute in Hc. injection Hc as <-.
    vm_compute in Ho. injection Ho as <-.
    exists orow. split; [exact Hout|]. split; [exact Herr|].
    rewrite (Hsecond _ _ eq_refl). exact Herr.
  - destruct (Hrows 1%nat numeric_row_1 eq_refl)
      as (orow & v & o & Hout & Hc & Ho & Herr & Hfirst & _).
    vm_compute in Hc. injection Hc as <-.
    vm_compute in Ho. injection Ho as <-.
    exists orow. split; [exact Hout|]. split; [exact Herr|].
    rewrite (Hfirst _ eq_refl). exact Herr.
Defined.

Lemma invalid_setup_aborts_early_witness :
  files (sample_host sample_table_no_sentence) (input sample_args)
    = inr sample_table_no_sentence ∧
  ("err_sentence" ∉ columns sample_table_no_sentence
   ∨ environ (sample_host sample_table_no_sentence) !! "UPSTAGE_API_KEY" = None
   ∨ environ (sample_host sample_table_no_sentence) !! "UPSTAGE_API_KEY" = Some []) ∧
  ∃ s' e,
    sample_main (sample_host sample_table_no_sentence) sample_args fresh = (s', inl e) ∧
    exc_type e = "ValueError" ∧
    requests s' = requests fresh ∧ remote s' = remote fresh ∧
    written s' = written fresh.
Proof.
  assert ("err_sentence" ∉ columns sample_table_no_sentence
          ∨ environ (sample_host sample_table_no_sentence) !! "UPSTAGE_API_KEY" = None
          ∨ environ (sample_host sample_table_no_sentence) !! "UPSTAGE_API_KEY"
              = Some []) as Hbad by (left; evaluate).
  split_and!; [reflexivity|exact Hbad|].
  exact (invalid_setup_aborts_early (scripted sample_script) format_at_end
           sample_prompt_1 sample_prompt_2 sample_repr
           (sample_host sample_table_no_sentence) sample_args fresh
           sample_table_no_sentence eq_refl Hbad).
Defined.

(** C7 fails on the table of [id,err_sentence] with the lines [1,] and
    [2,]: the identifier of row 0 is the integer 1, every column is
    numeric and one holds floats, the loop reads the identifier as a
    float, and the table written has [1.0] where the input has [1]. *)
Theorem integer_id_written_as_float :
  valid_run (sample_host blank_table) sample_args blank_table sample_key ∧
  "id" ∈ columns blank_table ∧
  rows blank_table !! 0%nat = Some blank_row_0 ∧
  blank_row_0 !! "id" = Some (PyInt 1) ∧
  ∃ out (orow : Row),
    run_writes blank_script (sample_host blank_table) sample_args fresh out ∧
    rows out !! 0%nat = Some orow ∧
    orow !! "id" = Some (PyFloat 1) ∧
    orow !! "id" ≠ blank_row_0 !! "id".
Proof.
  assert (valid_run (sample_host blank_table) sample_args blank_table sample_key)
    as Hv by check_valid_run.
  split_and!; [exact Hv|evaluate|reflexivity|evaluate|].
  destruct (main_spec (scripted blank_script) format_at_end sample_prompt_1
              sample_prompt_2 sample_repr _ _ fresh _ _ Hv)
    as (out & Hw & _ & _ & Hrows).
  destruct (Hrows 0%nat blank_row_0 eq_refl) as (v & idv & o & _ & Hid & _ & Hout).
  rewrite bool_decide_eq_true_2 in Hid by evaluate.
  destruct Hid as (id0 & Hid0 & ->).
  vm_compute in Hid0. injection Hid0 as <-.
  eexists out, _. split; [exact Hw|]. split; [exact Hout|].
  rewrite out_row_lookup_id.
  assert (as_read blank_table (PyInt 1) = PyFloat 1) as -> by evaluate.
  split; [reflexivity|]. vm_compute. discriminate.
Qed.



(** A cell of text goes through as it is. *)
Example err_sentence_text_unchanged :
  ∃ out (orow : Row),
    sample_writes (sample_host sample_table) sample_args fresh out ∧
    rows out !! 2%nat = Some orow ∧
    sample_row_2 !! "err_sentence" = Some (PyStr (lit "오늘 날씨 좋다")) ∧
    orow !! "err_sentence" = Some (PyStr (lit "오늘 날씨 좋다")).
Proof.
  assert (valid_run (sample_host sample_table) sample_args sample_table sample_key)
    as Hv by check_valid_run.
  destruct (main_spec (scripted sample_script) format_at_end sample_prompt_1
              sample_prompt_2 sample_repr _ _ fresh _ _ Hv)
    as (out & Hw & _ & _ & Hrows).
  destruct (Hrows 2%nat sample_row_2 eq_refl) as (v & idv & o & Hc & _ & _ & Hout).
  vm_compute in Hc. injection Hc as <-.
  eexists out, _. split; [exact Hw|]. split; [exact Hout|].
  split; [evaluate|]. by rewrite out_row_lookup_err, as_read_str.
Qed.

(** C9 fails on row 1 of the sample table and of the table with the
    lines [1,] and [2,]: the row has the same cells in both and its one
    call fails the same way in both runs, and yet the one run writes the
    identifier [2] and the other [2.0], because the cells of the other
    rows make the one table a table of objects and the other a table of
    floats. *)
Theorem row_outcome_depends_on_other_rows :
  valid_run (sample_host sample_table) sample_args sample_table sample_key ∧
  valid_run (sample_host blank_table) sample_args blank_table sample_key ∧
  columns sample_table = columns blank_table ∧
  rows sample_table !! 1%nat = Some sample_row_1 ∧
  rows blank_table !! 1%nat = Some sample_row_1 ∧
  sample_observed (sample_host sample_table) sample_args fresh 1
    = Some (inl timed_out, None) ∧
  run_observed blank_script (sample_host blank_table) sample_args fresh 1
    = Some (inl timed_out, None) ∧
  ∃ out1 out2 (orow1 orow2 : Row),
    sample_writes (sample_host sample_table) sample_args fresh out1 ∧
    run_writes blank_script (sample_host blank_table) sample_args fresh out2 ∧
    rows out1 !! 1%nat = Some orow1 ∧ rows out2 !! 1%nat = Some orow2 ∧
    orow1 !! "id" = Some (PyInt 2) ∧ orow2 !! "id" = Some (PyFloat 2) ∧
    orow1 ≠ orow2.
Proof.
  assert (valid_run (sample_host sample_table) sample_args sample_table sample_key)
    as Hv1 by check_valid_run.
  assert (valid_run (sample_host blank_table) sample_args blank_table sample_key)
    as Hv2 by check_valid_run.
  split_and!;
    [exact Hv1|exact Hv2|reflexivity|reflexivity|reflexivity|evaluate|evaluate|].
  destruct (main_spec (scripted sample_script) format_at_end sample_prompt_1
              sample_prompt_2 sample_repr _ _ fresh _ _ Hv1)
    as (out1 & Hw1 & _ & _ & Hrows1).
  destruct (main_spec (scripted blank_script) format_at_end sample_prompt_1
              sample_prompt_2 sample_repr _ _ fresh _ _ Hv2)
    as (out2 & Hw2 & _ & _ & Hrows2).
  destruct (Hrows1 1%nat sample_row_1 eq_refl)
    as (v1 & id1 & o1 & _ & Hid1 & _ & Hout1).
  destruct (Hrows2 1%nat sample_row_1 eq_refl)
    as (v2 & id2 & o2 & _ & Hid2 & _ & Hout2).
  rewrite bool_decide_eq_true_2 in Hid1 by evaluate.
  rewrite bool_decide_eq_true_2 in Hid2 by evaluate.
  destruct Hid1 as (a1 & Ha1 & ->). destruct Hid2 as (a2 & Ha2 & ->).
  vm_compute in Ha1. injection Ha1 as <-.
  vm_compute in Ha2. injection Ha2 as <-.
  assert (as_read sample_table (PyInt 2) = PyInt 2) as E1 by evaluate.
  assert (as_read blank_table (PyInt 2) = PyFloat 2) as E2 by evaluate.
  rewrite E1 in Hout1. rewrite E2 in Hout2.
  eexists out1, out2, _, _.
  split; [exact Hw1|]. split; [exact Hw2|].
  split; [exact Hout1|]. split; [exact Hout2|].
  rewrite !out_row_lookup_id. split; [reflexivity|]. split; [reflexivity|].
  intros Heq. apply (f_equal (λ r : Row, r !! "id")) in Heq.
  rewrite !out_row_lookup_id in Heq. discriminate.
Qed.

Lemma blank_reviewer_content_emitted_witness :
  valid_run (sample_host sample_table) sample_args sample_table sample_key ∧
  rows sample_table !! 4%nat = Some sample_row_4 ∧
  sample_observed (sample_host sample_table) sample_args fresh 4
    = Some (inr (lit "def."), Some (inr (lit "   "))) ∧
  strip (lit "   ") = [] ∧
  ∃ out (orow : Row),
    sample_writes (sample_host sample_table) sample_args fresh out ∧
    rows out !! 4%nat = Some orow ∧
    orow !! "cor_sentence" = Some (PyStr []).
Proof.
  assert (valid_run (sample_host sample_table) sample_args sample_table sample_key)
    as Hv by check_valid_run.
  assert (sample_observed (sample_host sample_table) sample_args fresh 4
          = Some (inr (lit "def."), Some (inr (lit "   "))))
    as Ho by evaluate.
  assert (strip (lit "   ") = []) as Hb by evaluate.
  split_and!; [exact Hv|reflexivity|exact Ho|exact Hb|].
  exact (blank_reviewer_content_emitted _ _ _ _ _ _ _ _ _ _ 4%nat _ _ _
           Hv eq_refl Ho Hb).
Defined.

(** ** The sample runs, continued *)

Lemma output_table_shape_witness :
  valid_run (sample_host sample_table) sample_args sample_table sample_key ∧
  ∃ out, sample_writes (sample_host sample_table) sample_args fresh out ∧
    columns out = ["id"; "err_sentence"; "cor_sentence"] ∧
    well_formed out ∧
    ∀ i (orow : Row), rows out !! i = Some orow →
      ∃ e c, orow !! "err_sentence" = Some (PyStr e) ∧
             orow !! "cor_sentence" = Some (PyStr c).
Proof.
  assert (valid_run (sample_host sample_table) sample_args sample_table sample_key)
    as Hv by check_valid_run.
  split; [exact Hv|].
  exact (output_table_shape _ _ _ _ _ _ _ _ _ _ Hv).
Defined.

Lemma requests_bounded_and_uniform_witness :
  valid_run (sample_host sample_table) sample_args sample_table sample_key ∧
  ∃ s' l,
    sample_main (sample_host sample_table) sample_args fresh = (s', inr ()) ∧
    requests s' = requests fresh ++ l ∧
    (length l ≤ 2 * length (rows sample_table))%nat ∧
    Forall (λ q,
              req_model q = model sample_args ∧ req_temperature q = 0%Qc ∧
              ∃ system prompt,
                (system = system_1 ∨ system = system_2) ∧
                req_messages q = [ mkMessage (lit "system") system;
                                   mkMessage (lit "user") prompt ]) l.
Proof.
  assert (valid_run (sample_host sample_table) sample_args sample_table sample_key)
    as Hv by check_valid_run.
  split; [exact Hv|].
  exact (requests_bounded_and_uniform _ _ _ _ _ _ _ _ _ _ Hv).
Defined.

Lemma success_sends_two_requests_witness :
  valid_run (sample_host numeric_table) sample_args numeric_table sample_key ∧
  rows numeric_table !! 0%nat = Some numeric_row_0 ∧
  numeric_row_0 !! "err_sentence" = Some (PyInt 5) ∧
  run_observed short_script (sample_host numeric_table) sample_args fresh 0
    = Some (inr (lit "안녕하세요"), Some (inr (lit " 안녕하세요. "))) ∧
  ∃ p1 p2,
    format_at_end sample_prompt_1 (lit "5.0") = inr p1 ∧
    format_at_end sample_prompt_2 (lit "안녕하세요") = inr p2 ∧
    requests (run_store_before short_script (sample_host numeric_table)
                sample_args fresh 1)
      = requests (run_store_before short_script (sample_host numeric_table)
                    sample_args fresh 0)
          ++ [chat_request sample_args system_1 p1;
              chat_request sample_args system_2 p2] ∧
    stdout (run_store_before short_script (sample_host numeric_table)
              sample_args fresh 1)
      = stdout (run_store_before short_script (sample_host numeric_table)
                  sample_args fresh 0).
Proof.
  assert (valid_run (sample_host numeric_table) sample_args numeric_table
            sample_key) as Hv by check_valid_run.
  assert (numeric_row_0 !! "err_sentence" = Some (PyInt 5)) as Hc by evaluate.
  assert (run_observed short_script (sample_host numeric_table) sample_args
            fresh 0
          = Some (inr (lit "안녕하세요"), Some (inr (lit " 안녕하세요. "))))
    as Ho by evaluate.
  split_and!; [exact Hv|reflexivity|exact Hc|exact Ho|].
  exact (success_sends_two_requests (scripted short_script) format_at_end
           sample_prompt_1 sample_prompt_2 sample_repr
           (sample_host numeric_table) sample_args fresh numeric_table sample_key
           0%nat numeric_row_0 (PyInt 5) (lit "안녕하세요") (lit " 안녕하세요. ")
           Hv eq_refl Hc Ho).
Defined.

(** The two requests of that row, in full. *)
Example numeric_requests :
  requests (run_store_before short_script (sample_host numeric_table)
              sample_args fresh 1)
  = [ chat_request sample_args system_1 (sample_prompt_1 ++ lit "5.0");
      chat_request sample_args system_2 (sample_prompt_2 ++ lit "안녕하세요") ].
Proof. vm_compute. reflexivity. Qed.

Lemma specialist_failure_trace_witness :
  valid_run (sample_host numeric_table) sample_args numeric_table sample_key ∧
  rows numeric_table !! 1%nat = Some numeric_row_1 ∧
  numeric_row_1 !! "err_sentence" = Some (PyInt 6) ∧
  run_observed numeric_script (sample_host numeric_table) sample_args fresh 1
    = Some (inl no_connection, None) ∧
  stdout (run_store_before numeric_script (sample_host numeric_table)
            sample_args fresh 2)
    = stdout (run_store_before numeric_script (sample_host numeric_table)
                sample_args fresh 1)
        ++ [lit "Error processing: 6.0... - Connection error."] ∧
  (requests (run_store_before numeric_script (sample_host numeric_table)
               sample_args fresh 2)
     = requests (run_store_before numeric_script (sample_host numeric_table)
                   sample_args fresh 1)
   ∨ ∃ p1,
       format_at_end sample_prompt_1 (lit "6.0") = inr p1 ∧
       requests (run_store_before numeric_script (sample_host numeric_table)
                   sample_args fresh 2)
         = requests (run_store_before numeric_script (sample_host numeric_table)
                       sample_args fresh 1)
             ++ [chat_request sample_args system_1 p1]).
Proof.
  assert (valid_run (sample_host numeric_table) sample_args numeric_table
            sample_key) as Hv by check_valid_run.
  assert (numeric_row_1 !! "err_sentence" = Some (PyInt 6)) as Hc by evaluate.
  assert (run_observed numeric_script (sample_host numeric_table) sample_args
            fresh 1 = Some (inl no_connection, None))
    as Ho by evaluate.
  split_and!; [exact Hv|reflexivity|exact Hc|exact Ho|..];
    apply (specialist_failure_trace (scripted numeric_script) format_at_end
             sample_prompt_1 sample_prompt_2 sample_repr
             (sample_host numeric_table) sample_args fresh numeric_table
             sample_key 1%nat numeric_row_1 (PyInt 6) no_connection None
             Hv eq_refl Hc Ho).
Defined.

Lemma reviewer_failure_trace_witness :
  valid_run (sample_host numeric_table) sample_args numeric_table sample_key ∧
  rows numeric_table !! 0%nat = Some numeric_row_0 ∧
  numeric_row_0 !! "err_sentence" = Some (PyInt 5) ∧
  run_observed numeric_script (sample_host numeric_table) sample_args fresh 0
    = Some (inr (lit "  "), Some (inl timed_out)) ∧
  stdout (run_store_before numeric_script (sample_host numeric_table)
            sample_args fresh 1)
    = stdout (run_store_before numeric_script (sample_host numeric_table)
                sample_args fresh 0)
        ++ [lit "Error processing: 5.0... - Request timed out."] ∧
  ∃ p1,
    format_at_end sample_prompt_1 (lit "5.0") = inr p1 ∧
    ((format_at_end sample_prompt_2 (strip (lit "  ")) = inl timed_out ∧
      requests (run_store_before numeric_script (sample_host numeric_table)
                  sample_args fresh 1)
        = requests (run_store_before numeric_script (sample_host numeric_table)
                      sample_args fresh 0)
            ++ [chat_request sample_args system_1 p1])
     ∨ ∃ p2,
         format_at_end sample_prompt_2 (strip (lit "  ")) = inr p2 ∧
         requests (run_store_before numeric_script (sample_host numeric_table)
                     sample_args fresh 1)
           = requests (run_store_before numeric_script (sample_host numeric_table)
                         sample_args fresh 0)
               ++ [chat_request sample_args system_1 p1;
                   chat_request sample_args system_2 p2]).
Proof.
  assert (valid_run (sample_host numeric_table) sample_args numeric_table
            sample_key) as Hv by check_valid_run.
  assert (numeric_row_0 !! "err_sentence" = Some (PyInt 5)) as Hc by evaluate.
  assert (run_observed numeric_script (sample_host numeric_table) sample_args
            fresh 0 = Some (inr (lit "  "), Some (inl timed_out)))
    as Ho by evaluate.
  split_and!; [exact Hv|reflexivity|exact Hc|exact Ho|..];
    apply (reviewer_failure_trace (scripted numeric_script) format_at_end
             sample_prompt_1 sample_prompt_2 sample_repr
             (sample_host numeric_table) sample_args fresh numeric_table
             sample_key 0%nat numeric_row_0 (PyInt 5) (lit "  ") timed_out
             Hv eq_refl Hc Ho).
Defined.

(** The console and the request log of the run on the numeric table. *)
Example numeric_console :
  stdout (run_main numeric_script (sample_host numeric_table) sample_args fresh).1
  = [ lit "Model: solar-pro2"; lit "Output: submission.csv";
      lit "Error processing: 5.0... - Request timed out.";
      lit "Error processing: 6.0... - Connection error.";
      lit "Wrote 2 rows to submission.csv" ]
  ∧ requests
      (run_main numeric_script (sample_host numeric_table) sample_args fresh).1
    = [ chat_request sample_args system_1 (sample_prompt_1 ++ lit "5.0");
        chat_request sample_args system_2 sample_prompt_2;
        chat_request sample_args system_1 (sample_prompt_1 ++ lit "6.0") ].
Proof. split; vm_compute; reflexivity. Qed.

Lemma final_report_line_witness :
  valid_run (sample_host sample_table) sample_args sample_table sample_key ∧
  ∃ s',
    sample_main (sample_host sample_table) sample_args fresh = (s', inr ()) ∧
    last (stdout s')
      = Some (lit "Wrote " ++ str_of_nat (length (rows sample_table))
                ++ lit " rows to " ++ output sample_args).
Proof.
  assert (valid_run (sample_host sample_table) sample_args sample_table sample_key)
    as Hv by check_valid_run.
  split; [exact Hv|].
  exact (final_report_line _ _ _ _ _ _ _ _ _ _ Hv).
Defined.

Lemma unreadable_input_aborts_witness :
  files sample_host_unreadable (input sample_args)
    = inl (mkExc "FileNotFoundError" (lit "[Errno 2] No such file or directory")) ∧
  sample_main sample_host_unreadable sample_args fresh
    = (fresh,
       inl (mkExc "FileNotFoundError" (lit "[Errno 2] No such file or directory"))).
Proof.
  split; [reflexivity|].
  exact (unreadable_input_aborts (scripted sample_script) format_at_end
           sample_prompt_1 sample_prompt_2 sample_repr sample_host_unreadable
           sample_args fresh _ eq_refl).
Defined.

Lemma empty_table_written_witness :
  valid_run (sample_host empty_table) sample_args empty_table sample_key ∧
  rows empty_table = [] ∧
  ∃ s',
    sample_main (sample_host empty_table) sample_args fresh = (s', inr ()) ∧
    requests s' = requests fresh ∧
    written s'
      = written fresh
          ++ [(output sample_args,
               {| columns := ["id"; "err_sentence"; "cor_sentence"];
                  rows := [] |})].
Proof.
  assert (valid_run (sample_host empty_table) sample_args empty_table sample_key)
    as Hv by check_valid_run.
  split_and!; [exact Hv|reflexivity|].
  exact (empty_table_written _ _ _ _ _ _ _ _ _ _ Hv eq_refl).
Defined.

#[local] Abbreviation blank_then_timeout :=
  ((inr (lit "  "),
    Some (inl (mkExc "APIConnectionError" (lit "Request timed out."))))
   : (Exception + str) * option (Exception + str)).

Lemma fallback_never_blank_witness :
  valid_run (sample_host sample_table) sample_args sample_table sample_key ∧
  rows sample_table !! 3%nat = Some sample_row_3 ∧
  sample_row_3 !! "err_sentence" = Some (PyStr (lit "abc")) ∧
  py_str sample_repr (PyStr (lit "abc")) ≠ [] ∧
  sample_observed (sample_host sample_table) sample_args fresh 3
    = Some blank_then_timeout ∧
  ((∃ e, blank_then_timeout.1 = inl e)
   ∨ (∃ c1 e, blank_then_timeout = (inr c1, Some (inl e)))) ∧
  ∃ out (orow : Row) t,
    sample_writes (sample_host sample_table) sample_args fresh out ∧
    rows out !! 3%nat = Some orow ∧
    orow !! "cor_sentence" = Some (PyStr t) ∧ t ≠ [].
Proof.
  assert (valid_run (sample_host sample_table) sample_args sample_table sample_key)
    as Hv by check_valid_run.
  assert (sample_row_3 !! "err_sentence" = Some (PyStr (lit "abc")))
    as Hc by evaluate.
  assert (py_str sample_repr (PyStr (lit "abc")) ≠ [])
    as Hne by (vm_compute; discriminate).
  assert (sample_observed (sample_host sample_table) sample_args fresh 3
          = Some blank_then_timeout) as Ho by evaluate.
  assert ((∃ e, blank_then_timeout.1 = inl e)
          ∨ (∃ c1 e, blank_then_timeout = (inr c1, Some (inl e)))) as Hfail
    by (right; eexists _, _; reflexivity).
  split_and!; [exact Hv|reflexivity|exact Hc|exact Hne|exact Ho|exact Hfail|].
  exact (fallback_never_blank _ _ _ _ _ _ _ _ _ _ 3%nat _ _ _
           Hv eq_refl Hc Hne Ho Hfail).
Defined.

Lemma model_answers_are_stripped_witness :
  valid_run (sample_host sample_table) sample_args sample_table sample_key ∧
  rows sample_table !! 0%nat = Some sample_row_0 ∧
  sample_observed (sample_host sample_table) sample_args fresh 0
    = Some (inr (lit "안녕하세요"), Some (inr (lit " 안녕하세요. "))) ∧
  (truthy (strip (lit "안녕하세요")) = true
   ∨ (∃ c2, Some (@inr Exception str (lit " 안녕하세요. ")) = Some (inr c2))) ∧
  ∃ out (orow : Row) t,
    sample_writes (sample_host sample_table) sample_args fresh out ∧
    rows out !! 0%nat = Some orow ∧
    orow !! "cor_sentence" = Some (PyStr t) ∧
    (∀ c, head t = Some c → isspace c = false) ∧
    (∀ c, last t = Some c → isspace c = false).
Proof.
  assert (valid_run (sample_host sample_table) sample_args sample_table sample_key)
    as Hv by check_valid_run.
  assert (sample_observed (sample_host sample_table) sample_args fresh 0
          = Some (inr (lit "안녕하세요"), Some (inr (lit " 안녕하세요. "))))
    as Ho by evaluate.
  assert (truthy (strip (lit "안녕하세요")) = true
          ∨ (∃ c2, Some (@inr Exception str (lit " 안녕하세요. "))
                   = Some (inr c2))) as Hans
    by (right; eexists; reflexivity).
  split_and!; [exact Hv|reflexivity|exact Ho|exact Hans|].
  exact (model_answers_are_stripped _ _ _ _ _ _ _ _ _ _ 0%nat _ _ _
           Hv eq_refl Ho Hans).
Defined.

Lemma placeholder_ids_distinct_witness :
  valid_run (sample_host sample_table_no_id) sample_args sample_table_no_id
    sample_key ∧
  ("id" ∉ columns sample_table_no_id) ∧
  ∃ out, sample_writes (sample_host sample_table_no_id) sample_args fresh out ∧
    ∀ i j (oi oj : Row),
      rows out !! i = Some oi → rows out !! j = Some oj →
      oi !! "id" = oj !! "id" → i = j.
Proof.
  assert (valid_run (sample_host sample_table_no_id) sample_args
            sample_table_no_id sample_key) as Hv by check_valid_run.
  assert ("id" ∉ columns sample_table_no_id) as Hno by evaluate.
  split_and!; [exact Hv|exact Hno|].
  exact (placeholder_ids_distinct _ _ _ _ _ _ _ _ _ _ Hv Hno).
Defined.

Lemma console_transcript_witness :
  valid_run (sample_host sample_table) sample_args sample_table sample_key ∧
  ∃ s' errs,
    sample_main (sample_host sample_table) sample_args fresh = (s', inr ()) ∧
    stdout s'
      = stdout fresh ++ header sample_args sample_table ++ errs
          ++ [lit "Wrote " ++ str_of_nat (length (rows sample_table))
                ++ lit " rows to " ++ output sample_args] ∧
    length errs
      = length (filter (λ j, row_failed
                               (sample_observed (sample_host sample_table)
                                  sample_args fresh j))
                  (seq 0 (length (rows sample_table)))) ∧
    Forall (λ line, ∃ rest, line = lit "Error processing: " ++ rest) errs.
Proof.
  assert (valid_run (sample_host sample_table) sample_args sample_table sample_key)
    as Hv by check_valid_run.
  split; [exact Hv|].
  exact (console_transcript _ _ _ _ _ _ _ _ _ _ Hv).
Defined.

(** Three of the five rows of the sample run fail, and the console has
    the two lines of the header, three error lines and the report. *)
Example sample_console :
  length (filter (λ j, row_failed (sample_observed (sample_host sample_table)
                                     sample_args fresh j))
            (seq 0 (length (rows sample_table)))) = 3%nat ∧
  length (stdout (sample_main (sample_host sample_table) sample_args fresh).1)
  = 6%nat.
Proof. split; vm_compute; reflexivity. Qed.

Lemma all_success_request_count_witness :
  valid_run (sample_host short_table) sample_args short_table sample_key ∧
  (∀ i, (i < length (rows short_table))%nat →
        ∃ c1 c2,
          run_observed short_script (sample_host short_table) sample_args fresh i
          = Some (inr c1, Some (inr c2))) ∧
  ∃ s' l,
    run_main short_script (sample_host short_table) sample_args fresh
      = (s', inr ()) ∧
    requests s' = requests fresh ++ l ∧
    length l = (2 * length (rows short_table))%nat.
Proof.
  assert (valid_run (sample_host short_table) sample_args short_table sample_key)
    as Hv by check_valid_run.
  assert (∀ i, (i < length (rows short_table))%nat →
               ∃ c1 c2,
                 run_observed short_script (sample_host short_table)
                   sample_args fresh i
                 = Some (inr c1, Some (inr c2))) as Hok.
  { intros [|[|i]] Hi.
    - eexists _, _. vm_compute. reflexivity.
    - eexists _, _. vm_compute. reflexivity.
    - simpl in Hi. lia. }
  split_and!; [exact Hv|exact Hok|].
  exact (all_success_request_count _ _ _ _ _ _ _ _ _ _ Hv Hok).
Defined.

Lemma setup_error_messages_witness :
  files (sample_host_no_key sample_table_no_id) (input sample_args)
    = inr sample_table_no_id ∧
  ("err_sentence" ∉ columns sample_table_no_id →
   sample_main (sample_host_no_key sample_table_no_id) sample_args fresh
   = (fresh, inl (ValueError "Input CSV must contain 'err_sentence' column"))) ∧
  ("err_sentence" ∈ columns sample_table_no_id →
   environ (sample_host_no_key sample_table_no_id) !! "UPSTAGE_API_KEY" = None
   ∨ environ (sample_host_no_key sample_table_no_id) !! "UPSTAGE_API_KEY"
     = Some [] →
   ∃ s',
     sample_main (sample_host_no_key sample_table_no_id) sample_args fresh
     = (s', inl (ValueError "UPSTAGE_API_KEY not found in environment variables")) ∧
     stdout s'
     = stdout fresh
         ++ (if bool_decide ("id" ∉ columns sample_table_no_id)
             then [lit "Warning: 'id' column not found. Generating without id."]
             else [])).
Proof.
  split; [reflexivity|].
  exact (setup_error_messages (scripted sample_script) format_at_end
           sample_prompt_1 sample_prompt_2 sample_repr
           (sample_host_no_key sample_table_no_id) sample_args fresh
           sample_table_no_id eq_refl).
Defined.

(** The run without credential on the table without [id] column: the
    warning is on the console when [main] ends. *)
Example sample_no_key_no_id :
  let r := sample_main (sample_host_no_key sample_table_no_id) sample_args fresh in
  r.2 = inl (ValueError "UPSTAGE_API_KEY not found in environment variables") ∧
  stdout r.1 = [lit "Warning: 'id' column not found. Generating without id."] ∧
  requests r.1 = [] ∧ written r.1 = [].
Proof. vm_compute. done. Qed.


(** With an [id] column: the identifiers of a table of objects go
    through as they are, and the integer identifiers of a table of
    floats come out as floats. *)
Example output_id_with_column :
  (∃ out (orow : Row),
     sample_writes (sample_host sample_table) sample_args fresh out ∧
     rows out !! 3%nat = Some orow ∧ orow !! "id" = Some (PyInt 4)) ∧
  (∃ out (orow : Row),
     run_writes numeric_script (sample_host numeric_table) sample_args fresh out ∧
     rows out !! 1%nat = Some orow ∧ orow !! "id" = Some (PyFloat 2)).
Proof.
  assert (valid_run (sample_host sample_table) sample_args sample_table sample_key)
    as Hv1 by check_valid_run.
  assert (valid_run (sample_host numeric_table) sample_args numeric_table
            sample_key) as Hv2 by check_valid_run.
  split.
  - destruct (main_spec (scripted sample_script) format_at_end sample_prompt_1
                sample_prompt_2 sample_repr _ _ fresh _ _ Hv1)
      as (out & Hw & _ & _ & Hrows).
    destruct (Hrows 3%nat sample_row_3 eq_refl) as (v & idv & o & _ & Hid & _ & Hout).
    rewrite bool_decide_eq_true_2 in Hid by evaluate.
    destruct Hid as (id0 & Hid0 & ->).
    vm_compute in Hid0. injection Hid0 as <-.
    eexists out, _. split; [exact Hw|]. split; [exact Hout|].
    rewrite out_row_lookup_id. evaluate.
  - destruct (main_spec (scripted numeric_script) format_at_end sample_prompt_1
                sample_prompt_2 sample_repr _ _ fresh _ _ Hv2)
      as (out & Hw & _ & _ & Hrows).
    destruct (Hrows 1%nat numeric_row_1 eq_refl)
      as (v & idv & o & _ & Hid & _ & Hout).
    rewrite bool_decide_eq_true_2 in Hid by evaluate.
    destruct Hid as (id0 & Hid0 & ->).
    vm_compute in Hid0. injection Hid0 as <-.
    eexists out, _. split; [exact Hw|]. split; [exact Hout|].
    rewrite out_row_lookup_id. evaluate.
Qed.

Lemma row_outcome_isolated_witness :
  valid_run (sample_host sample_table) sample_args sample_table sample_key ∧
  valid_run (sample_host other_table) sample_args other_table sample_key ∧
  ("id" ∈ columns sample_table ↔ "id" ∈ columns other_table) ∧
  ∃ out1 out2,
    sample_writes (sample_host sample_table) sample_args fresh out1 ∧
    run_writes other_script (sample_host other_table) sample_args fresh out2 ∧
    rows out1 !! 2%nat
      = Some (out_row (PyInt 3) (lit "오늘 날씨 좋다") (lit "오늘 날씨 좋다.")) ∧
    rows out2 !! 2%nat
      = Some (out_row (PyInt 3) (lit "오늘 날씨 좋다") (lit "오늘 날씨 좋다.")).
Proof.
  assert (valid_run (sample_host sample_table) sample_args sample_table sample_key)
    as Hv1 by check_valid_run.
  assert (valid_run (sample_host other_table) sample_args other_table sample_key)
    as Hv2 by check_valid_run.
  assert ("id" ∈ columns sample_table ↔ "id" ∈ columns other_table)
    as Hcol by reflexivity.
  split_and!; [exact Hv1|exact Hv2|exact Hcol|].
  destruct (row_outcome_isolated (scripted sample_script) (scripted other_script)
              format_at_end format_at_end sample_prompt_1 sample_prompt_2
              sample_prompt_1 sample_prompt_2 sample_repr
              (sample_host sample_table) (sample_host other_table)
              sample_args sample_args fresh fresh sample_table other_table
              sample_key sample_key Hv1 Hv2 Hcol)
    as (out1 & out2 & Hw1 & Hw2 & Hrow & _).
  destruct (Hrow 2%nat sample_row_2 sample_row_2 eq_refl eq_refl
              ltac:(evaluate) ltac:(evaluate) ltac:(evaluate)) as [_ Heq].
  exists out1, out2. split; [exact Hw1|]. split; [exact Hw2|].
  rewrite <- Heq.
  assert (rows out1 !! 2%nat
          = Some (out_row (PyInt 3) (lit "오늘 날씨 좋다")
                    (lit "오늘 날씨 좋다."))) as Hout1.
  { destruct (main_spec (scripted sample_script) format_at_end sample_prompt_1
                sample_prompt_2 sample_repr _ _ fresh _ _ Hv1)
      as (out & Hw & _ & _ & Hrows).
    pose proof (writes_functional _ _ _ _ _ _ _ _ _ _ Hw1 Hw) as ->.
    destruct (Hrows 2%nat sample_row_2 eq_refl)
      as (v & idv & o & Hc & Hid & Ho & Hout).
    rewrite bool_decide_eq_true_2 in Hid by evaluate.
    destruct Hid as (id0 & Hid0 & ->).
    vm_compute in Hc. injection Hc as <-.
    vm_compute in Hid0. injection Hid0 as <-.
    vm_compute in Ho. injection Ho as <-.
    rewrite Hout. do 2 f_equal; evaluate. }
  split; exact Hout1.
Defined.

(** Row 2 meets the premises in the two sample runs: same cells read,
    same answers, other rows and other calls around it; row 1 does not,
    its call fails in another way. *)
Example sample_rows_agree :
  rows sample_table !! 2%nat = Some sample_row_2 ∧
  rows other_table !! 2%nat = Some sample_row_2 ∧
  sample_observed (sample_host sample_table) sample_args fresh 2
    = run_observed other_script (sample_host other_table) sample_args fresh 2 ∧
  sample_observed (sample_host sample_table) sample_args fresh 1
    ≠ run_observed other_script (sample_host other_table) sample_args fresh 1.
Proof. split_and!; [reflexivity|reflexivity|evaluate|]. vm_compute. discriminate. Qed.
